(** * solana-nft-cloner: the client of the amoebit minter program

    A shallow embedding of [src/client/amoebit_init.ts] and
    [src/client/main.ts].  The client is a straight-line asynchronous
    script: it reads and writes three module-level variables
    ([connection], [payer], [programId]), talks to a cluster through
    the RPC methods of [Connection], and finally submits one
    transaction made of five instructions.

    The embedding keeps that shape.  Every [async] function of the
    source is a computation in the monad [M]: it threads the module
    variables and the state of the outside world, may end in a thrown
    JavaScript error, and emits the list of external calls it made.
    The outside world (cluster, key files, random generator) is not
    part of the repository; it is a record of handlers, [Externals],
    over an arbitrary state type, so every theorem holds for every
    cluster behaviour. *)

From stdpp Require Import base list strings gmap.
From Stdlib Require Import ZArith Lia.
From Stdlib.Strings Require Import Byte Ascii.

Open Scope Z_scope.

(** ** Bytes, base58 and public keys *)

(** A Node [Buffer]. *)
Definition Buffer : Type := list byte.

Definition byte_of_Z (z : Z) : byte :=
  match Byte.of_N (Z.to_N (z mod 256)) with
  | Some b => b
  | None => x00
  end.

Definition Z_of_byte (b : byte) : Z := Z.of_N (Byte.to_N b).

(** [Buffer.from(s)] for an ASCII string literal. *)
Definition Buffer_from (s : string) : Buffer := String.list_byte_of_string s.

(** Big-endian digits of [z] in base 256, without leading zero bytes. *)
Fixpoint be_digits (fuel : nat) (z : Z) (acc : Buffer) : Buffer :=
  match fuel with
  | O => acc
  | S fuel' =>
      if z <=? 0 then acc
      else be_digits fuel' (z / 256) (byte_of_Z (z mod 256) :: acc)
  end.

Definition be_bytes (z : Z) : Buffer :=
  be_digits (S (Z.to_nat (Z.log2 z))) z [].

(** The number a big-endian byte string stands for. *)
Definition be_value (b : Buffer) : Z :=
  fold_left (fun acc x => acc * 256 + Z_of_byte x) b 0.

Module bs58.

Definition ALPHABET : string :=
  "123456789ABCDEFGHJKLMNPQRSTUVWXYZabcdefghijkmnopqrstuvwxyz".

Fixpoint index_from (i : Z) (c : Ascii.ascii) (s : string) : option Z :=
  match s with
  | EmptyString => None
  | String d s' => if Ascii.eqb c d then Some i else index_from (i + 1) c s'
  end.

Definition digit (c : Ascii.ascii) : option Z := index_from 0 c ALPHABET.

(** Value of a base58 numeral, [None] on a character outside the
    alphabet. *)
Fixpoint value (acc : Z) (s : string) : option Z :=
  match s with
  | EmptyString => Some acc
  | String c s' =>
      match digit c with
      | Some d => value (acc * 58 + d) s'
      | None => None
      end
  end.

(** Each leading ['1'] stands for one leading zero byte. *)
Fixpoint leading_ones (s : string) : nat :=
  match s with
  | String "1"%char s' => S (leading_ones s')
  | _ => O
  end.

Definition decode (s : string) : option Buffer :=
  match value 0 s with
  | Some v => Some (replicate (leading_ones s) x00 ++ be_bytes v)
  | None => None
  end.

End bs58.

(** ** Numbers

    A JavaScript number is an IEEE double.  The numbers of the client
    are lamport counts, integers of magnitude far below the largest
    double; they are kept as the integer they stand for, and the three
    arithmetic operations round their exact result to the nearest
    double, ties to the even significand, as the machine does. *)

(** The double nearest to the integer [z]: [z] itself below 2^53 in
    magnitude, and beyond that the nearest multiple of the unit in the
    last place of a 53-bit significand. *)
Definition nearest_double (z : Z) : Z :=
  let m := Z.abs z in
  if m <? 2 ^ 53 then z
  else
    let u := 2 ^ (Z.log2 m - 52) in
    let q := m / u in
    let r := m mod u in
    let q' :=
      if 2 * r <? u then q
      else if 2 * r =? u then (if Z.even q then q else q + 1)
      else q + 1 in
    Z.sgn z * (q' * u).

Definition number_add (a b : Z) : Z := nearest_double (a + b).

Definition number_sub (a b : Z) : Z := nearest_double (a - b).

Definition number_mul (a b : Z) : Z := nearest_double (a * b).

(** The errors a JavaScript computation can end in. *)
Inductive JsError : Type :=
| TypeError (msg : string)
| Error (msg : string).

Definition Result (A : Type) : Type := JsError + A.

(** [PublicKey] of web3.js holds the key as a big number [_bn]. *)
Record PublicKey : Type := mkPublicKey { bn : Z }.

Definition PublicKey_eqb (a b : PublicKey) : bool := bn a =? bn b.

(** [new PublicKey(value)] for a base58 string: the decoded buffer
    must be exactly 32 bytes long. *)
Definition PublicKey_of_base58 (s : string) : Result PublicKey :=
  match bs58.decode s with
  | None => inl (Error "Non-base58 character")
  | Some b =>
      if (Z.of_nat (length b) =? 32)
      then inr (mkPublicKey (be_value b))
      else inl (Error "Invalid public key input")
  end.

(** [new PublicKey(bytes)]. *)
Definition PublicKey_of_bytes (b : Buffer) : PublicKey :=
  mkPublicKey (be_value b).

(** [pk.toBuffer()]: the key as 32 big-endian bytes, zero padded. *)
Definition toBuffer (pk : PublicKey) : Buffer :=
  let b := be_bytes (bn pk) in
  replicate (32 - length b)%nat x00 ++ b.

Record Keypair : Type := mkKeypair {
  publicKey : PublicKey;
  secretKey : Buffer
}.

(** ** Account references, instructions, transactions *)

(** One entry of an instruction's [keys] array. *)
Record AccountMeta : Type := mkAccountMeta {
  pubkey : PublicKey;
  isSigner : bool;
  isWritable : bool
}.

(** An instruction value.  The four factory functions of web3.js and
    spl-token are library code outside the repository: an instruction
    they build is kept as the call that built it, with the arguments in
    the order of the call.  [new_TransactionInstruction] is the record
    [{keys, programId, data}] the client fills in itself. *)
Inductive TransactionInstruction : Type :=
| SystemProgram_createAccount
    (fromPubkey newAccountPubkey : PublicKey) (lamports space : Z)
    (programId : PublicKey)
| Token_createAssociatedTokenAccountInstruction
    (associatedProgramId programId mint associatedAccount owner payer : PublicKey)
| Token_createInitMintInstruction
    (programId mint : PublicKey) (decimals : Z) (mintAuthority : PublicKey)
    (freezeAuthority : option PublicKey)
| Token_createMintToInstruction
    (programId mint dest authority : PublicKey) (multiSigners : list Keypair)
    (amount : Z)
| new_TransactionInstruction
    (keys : list AccountMeta) (programId : PublicKey) (data : Buffer).

Record Transaction : Type := mkTransaction {
  instructions : list TransactionInstruction
}.

(** [new Transaction()]. *)
Definition new_Transaction : Transaction := mkTransaction [].

(** [transaction.add(...items)]: each item is pushed at the end. *)
Definition Transaction_add (t : Transaction)
    (items : list TransactionInstruction) : Transaction :=
  mkTransaction (instructions t ++ items).

(** The options object given to [sendAndConfirmTransaction]; an absent
    property is [None]. *)
Record ConfirmOptions : Type := mkConfirmOptions {
  skipPreflight : option bool;
  commitment : option string;
  preflightCommitment : option string
}.

(** ** The outside world *)

Record Connection : Type := mkConnection {
  endpoint : string;
  conn_commitment : string
}.

Record FeeCalculator : Type := mkFeeCalculator { lamportsPerSignature : Z }.

Record RecentBlockhash : Type := mkRecentBlockhash {
  blockhash : string;
  feeCalculator : FeeCalculator
}.

Record AccountInfo : Type := mkAccountInfo { executable : bool }.

(** What [console.log] is given. *)
Inductive LogArg : Type :=
| LogStr (s : string)
| LogBase58 (pk : PublicKey)
| LogDiv (num den : Z)
| LogTemplate (prefix : string) (pk : PublicKey).

(** The external calls a run makes, in order. *)
Inductive Event : Type :=
| EGetRpcUrl
| EGetPayer
| ECreateKeypairFromFile (file : string)
| EGetVersion (c : Connection)
| EGetRecentBlockhash (c : Connection)
| EGetBalance (c : Connection) (pk : PublicKey)
| ERequestAirdrop (c : Connection) (pk : PublicKey) (lamports : Z)
| EConfirmTransaction (c : Connection) (signature : string)
| EGetAccountInfo (c : Connection) (pk : PublicKey)
| EGetMinimumBalanceForRentExemption (c : Connection) (dataLength : Z)
| ESendAndConfirmTransaction (c : Connection) (t : Transaction)
    (signers : list Keypair) (options : ConfirmOptions)
| EKeypairGenerate
| EConsoleLog (args : list LogArg).

(** Everything the client imports: the helpers of [./utils] (not among
    the sources), the URL test of the [Connection] constructor, the RPC
    methods of [Connection], the random key generator, the constants of spl-token, and the two primitives of
    address derivation.  [Net] is the state of the outside world; a
    handler gets it and returns it, possibly changed, with either an
    error or an answer. *)
Record Externals (Net : Type) : Type := mkExternals {
  (* ./utils *)
  getRpcUrl : Net -> Result string * Net;
  getPayer : Net -> Result Keypair * Net;
  createKeypairFromFile : string -> Net -> Result Keypair * Net;
  (* Connection *)
  valid_endpoint : string -> bool;
  getVersion : Connection -> Net -> Result string * Net;
  getRecentBlockhash : Connection -> Net -> Result RecentBlockhash * Net;
  getBalance : Connection -> PublicKey -> Net -> Result Z * Net;
  requestAirdrop : Connection -> PublicKey -> Z -> Net -> Result string * Net;
  confirmTransaction : Connection -> string -> Net -> Result unit * Net;
  getAccountInfo :
    Connection -> PublicKey -> Net -> Result (option AccountInfo) * Net;
  getMinimumBalanceForRentExemption :
    Connection -> Z -> Net -> Result Z * Net;
  sendAndConfirmTransaction :
    Connection -> Transaction -> list Keypair -> ConfirmOptions ->
    Net -> Result string * Net;
  (* Keypair.generate, fs.existsSync *)
  Keypair_generate : Net -> Keypair * Net;
  existsSync : string -> Net -> bool;
  (* constants of web3.js and spl-token, and the two module paths *)
  LAMPORTS_PER_SOL : Z;
  TOKEN_PROGRAM_ID : PublicKey;
  MintLayout_span : Z;
  AccountLayout_span : Z;
  PROGRAM_SO_PATH : string;
  PROGRAM_KEYPAIR_PATH : string;
  (* address derivation: the hash, the curve test, the fixed suffix *)
  sha256 : Buffer -> Buffer;
  is_on_curve : Buffer -> bool;
  PDA_MARKER : Buffer
}.

Arguments getRpcUrl {Net} _ _.
Arguments getPayer {Net} _ _.
Arguments createKeypairFromFile {Net} _ _ _.
Arguments valid_endpoint {Net} _ _.
Arguments getVersion {Net} _ _ _.
Arguments getRecentBlockhash {Net} _ _ _.
Arguments getBalance {Net} _ _ _ _.
Arguments requestAirdrop {Net} _ _ _ _ _.
Arguments confirmTransaction {Net} _ _ _ _.
Arguments getAccountInfo {Net} _ _ _ _.
Arguments getMinimumBalanceForRentExemption {Net} _ _ _ _.
Arguments sendAndConfirmTransaction {Net} _ _ _ _ _ _.
Arguments Keypair_generate {Net} _ _.
Arguments existsSync {Net} _ _ _.
Arguments LAMPORTS_PER_SOL {Net} _.
Arguments TOKEN_PROGRAM_ID {Net} _.
Arguments MintLayout_span {Net} _.
Arguments AccountLayout_span {Net} _.
Arguments PROGRAM_SO_PATH {Net} _.
Arguments PROGRAM_KEYPAIR_PATH {Net} _.
Arguments sha256 {Net} _ _.
Arguments is_on_curve {Net} _ _.
Arguments PDA_MARKER {Net} _.

(** The three module-level variables of [amoebit_init.ts]; [None] is a
    variable still [undefined]. *)
Record Globals : Type := mkGlobals {
  connection : option Connection;
  payer : option Keypair;
  programId : option PublicKey
}.

Record World (Net : Type) : Type := mkWorld {
  globals : Globals;
  outside : Net
}.

Arguments mkWorld {Net} _ _.
Arguments globals {Net} _.
Arguments outside {Net} _.

(** What a run leaves behind: the value returned or the error thrown,
    the world afterwards, and the external calls made. *)
Record Outcome (Net A : Type) : Type := mkOutcome {
  result : Result A;
  final : World Net;
  emitted : list Event
}.

Arguments mkOutcome {Net A} _ _ _.
Arguments result {Net A} _.
Arguments final {Net A} _.
Arguments emitted {Net A} _.

(** ** The monad of asynchronous client code *)

Definition M (Net A : Type) : Type := World Net -> Outcome Net A.

Definition ret {Net A} (a : A) : M Net A :=
  fun w => mkOutcome (inr a) w [].

Definition throw {Net A} (e : JsError) : M Net A :=
  fun w => mkOutcome (inl e) w [].

Definition bind {Net A B} (m : M Net A) (k : A -> M Net B) : M Net B :=
  fun w =>
    let o := m w in
    match result o with
    | inl e => mkOutcome (inl e) (final o) (emitted o)
    | inr a =>
        let o' := k a (final o) in
        mkOutcome (result o') (final o') (emitted o ++ emitted o')
    end.

Notation "'let*' x := m 'in' k" := (bind m (fun x => k))
  (at level 10, x name, m at level 100, k at level 200).

(** A value that is either there or thrown. *)
Definition lift {Net A} (r : Result A) : M Net A :=
  fun w => mkOutcome r w [].

(** One external call: the handler runs on the outside world, and the
    call is recorded whether it succeeds or throws. *)
Definition perform {Net A} (e : Event) (h : Net -> Result A * Net) : M Net A :=
  fun w =>
    let r := h (outside w) in
    mkOutcome (fst r) (mkWorld (globals w) (snd r)) [e].

(** Reading a property of a module variable throws a [TypeError] while
    the variable is [undefined]. *)
Definition defined {Net A} (name : string) (v : Globals -> option A) : M Net A :=
  fun w =>
    match v (globals w) with
    | Some a => mkOutcome (inr a) w []
    | None =>
        mkOutcome
          (inl (TypeError ("Cannot read properties of undefined: " ++ name)))
          w []
    end.

Definition read {Net A} (v : Globals -> A) : M Net A :=
  fun w => mkOutcome (inr (v (globals w))) w [].

Definition assign {Net} (f : Globals -> Globals) : M Net unit :=
  fun w => mkOutcome (inr tt) (mkWorld (f (globals w)) (outside w)) [].

Definition console_log {Net} (args : list LogArg) : M Net unit :=
  fun w => mkOutcome (inr tt) w [EConsoleLog args].

(** ** The client *)

Section Client.

Context {Net : Type} (X : Externals Net).

Local Abbreviation M := (M Net).

(** *** Address derivation *)

(** Modelled from the spec: [PublicKey.findProgramAddress] belongs to
    web3.js and is not among the sources.  Section 4.1 of the
    specification gives the search: the bump byte runs from 255 down
    to 0; each candidate is hashed together with the seeds before it
    and the owner and a fixed suffix after it; the first hash that is
    off the curve is the address; when all 256 candidates are on the
    curve the derivation fails with [NoValidBumpFound].  [search n]
    tries the bumps [n - 1], ..., [0]. *)
Fixpoint search (seeds : list Buffer) (ownerProgram : PublicKey) (n : nat)
    : Result (PublicKey * Z) :=
  match n with
  | O => inl (Error "NoValidBumpFound")
  | S n' =>
      let bump := Z.of_nat n' in
      let h :=
        sha256 X
          (concat seeds ++ [byte_of_Z bump] ++ toBuffer ownerProgram
             ++ PDA_MARKER X) in
      if is_on_curve X h then search seeds ownerProgram n'
      else inr (PublicKey_of_bytes h, bump)
  end.

Definition derive (seeds : list Buffer) (ownerProgram : PublicKey)
    : Result (PublicKey * Z) :=
  search seeds ownerProgram 256.

(** [await PublicKey.findProgramAddress(seeds, programId)]. *)
Definition findProgramAddress (seeds : list Buffer) (ownerProgram : PublicKey)
    : M (PublicKey * Z) :=
  lift (derive seeds ownerProgram).

(** *** establishConnection *)

(** [new Connection(endpoint, commitment)] parses the endpoint and
    throws a [TypeError] on a string that is not a URL. *)
Definition new_Connection (endpoint commitment : string) : Result Connection :=
  if valid_endpoint X endpoint then inr (mkConnection endpoint commitment)
  else inl (TypeError "Invalid URL").

Definition establishConnection : M unit :=
  let* rpcUrl := perform EGetRpcUrl (getRpcUrl X) in
  let* fresh := lift (new_Connection rpcUrl "confirmed") in
  let* _ := assign (fun g =>
    mkGlobals (Some fresh) (payer g) (programId g)) in
  let* c := defined "connection" connection in
  let* version := perform (EGetVersion c) (getVersion X c) in
  console_log
    [LogStr "Connection to cluster established:"; LogStr rpcUrl; LogStr version].

(** *** establishPayer *)

Definition establishPayer : M unit :=
  let fees := 0 in
  let* p := read payer in
  let* fees :=
    match p with
    | None =>
        let* c := defined "connection" connection in
        let* recent := perform (EGetRecentBlockhash c) (getRecentBlockhash X c) in
        (* Calculate the cost of sending transactions *)
        let fees :=
          number_add fees
            (number_mul (lamportsPerSignature (feeCalculator recent)) 100) in
        let* kp := perform EGetPayer (getPayer X) in
        let* _ := assign (fun g =>
          mkGlobals (connection g) (Some kp) (programId g)) in
        ret fees
    | Some _ => ret fees
    end in
  let* c := defined "connection" connection in
  let* kp := defined "payer" payer in
  let* lamports :=
    perform (EGetBalance c (publicKey kp)) (getBalance X c (publicKey kp)) in
  let* lamports :=
    if lamports <? fees then
      (* If current balance is not enough to pay for fees, request an airdrop *)
      let* c := defined "connection" connection in
      let* kp := defined "payer" payer in
      let* sig :=
        perform (ERequestAirdrop c (publicKey kp) (number_sub fees lamports))
          (requestAirdrop X c (publicKey kp) (number_sub fees lamports)) in
      let* c := defined "connection" connection in
      let* _ := perform (EConfirmTransaction c sig) (confirmTransaction X c sig) in
      let* c := defined "connection" connection in
      let* kp := defined "payer" payer in
      perform (EGetBalance c (publicKey kp)) (getBalance X c (publicKey kp))
    else ret lamports in
  let* kp := defined "payer" payer in
  console_log
    [LogStr "Using account"; LogBase58 (publicKey kp); LogStr "containing";
     LogDiv lamports (LAMPORTS_PER_SOL X); LogStr "SOL to pay for fees"].

(** *** checkAccounts *)

Definition checkAccounts : M unit :=
  (* Read program id from keypair file *)
  let* programKeypair :=
    perform (ECreateKeypairFromFile (PROGRAM_KEYPAIR_PATH X))
      (createKeypairFromFile X (PROGRAM_KEYPAIR_PATH X)) in
  let* _ := assign (fun g =>
    mkGlobals (connection g) (payer g) (Some (publicKey programKeypair))) in
  (* Check if the program has been deployed *)
  let* c := defined "connection" connection in
  let* pid := defined "programId" programId in
  let* programInfo := perform (EGetAccountInfo c pid) (getAccountInfo X c pid) in
  let* _ :=
    match programInfo with
    | None =>
        fun w =>
          if existsSync X (PROGRAM_SO_PATH X) (outside w) then
            throw (Error
              "Program needs to be deployed with `solana program deploy dist/program/test.so`") w
          else throw (Error "Program needs to be built and deployed") w
    | Some info =>
        if negb (executable info) then throw (Error "Program is not executable")
        else ret tt
    end in
  let* pid := defined "programId" programId in
  console_log [LogTemplate "Using program " pid].

(** *** testContract *)

(** The key pairs and addresses [testContract] declares in its first
    [let] (lines 113-162), under the names of the source. *)
Record Resolved : Type := mkResolved {
  meta_program : PublicKey;
  minter_program : PublicKey;
  associated_program : PublicKey;
  mint_kp : Keypair;
  rugged_mint : PublicKey;
  token_key : PublicKey;
  rugged_token : PublicKey;
  meta_key : PublicKey;
  rugged_metadata : PublicKey;
  auth_key : PublicKey;
  sys_key : PublicKey;
  rent_key : PublicKey;
  new_update_auth : PublicKey
}.

(** [Keypair.generate()] draws from the outside world and never throws. *)
Definition generate : M Keypair :=
  perform EKeypairGenerate
    (fun n => (inr (fst (Keypair_generate X n)), snd (Keypair_generate X n))).

(** Lines 113-162, in the order the initialisers are evaluated.
    [new PublicKey(programId)] copies the key of the module variable and
    throws a [TypeError] while that variable is [undefined]. *)
Definition resolve : M Resolved :=
  let* meta_program :=
    lift (PublicKey_of_base58 "metaqbxxUerdq28cj1RbAWkYQm3ybzjb6a8bt518x1s") in
  let* minter_program := defined "programId" programId in
  let* associated_program :=
    lift (PublicKey_of_base58 "ATokenGPvbdGVxr1b2hvZbsiqW5xWH25efTNsLJA8knL") in
  let* mint_kp := generate in
  let* rugged_mint :=
    lift (PublicKey_of_base58 "GQFdQvFMjkq5x1Ny4nsEqRgcwdedJWpq3Fsy5KqjGKSm") in
  let* kp := defined "payer" payer in
  let* token_key :=
    findProgramAddress
      [toBuffer (publicKey kp);
       toBuffer (TOKEN_PROGRAM_ID X);
       toBuffer (publicKey mint_kp)]
      associated_program in
  let* kp := defined "payer" payer in
  let* rugged_token :=
    findProgramAddress
      [toBuffer (publicKey kp);
       toBuffer (TOKEN_PROGRAM_ID X);
       toBuffer rugged_mint]
      associated_program in
  let buff :=
    [Buffer_from "metadata";
     toBuffer meta_program;
     toBuffer (publicKey mint_kp)] in
  let* meta_key := findProgramAddress buff meta_program in
  let rug_buff :=
    [Buffer_from "metadata";
     toBuffer meta_program;
     toBuffer rugged_mint] in
  let* rugged_metadata := findProgramAddress rug_buff meta_program in
  let* auth_key :=
    findProgramAddress
      [Buffer_from "amoebit_minter";
       toBuffer minter_program;
       Buffer_from "amoebit_minter"]
      minter_program in
  let* sys_key := lift (PublicKey_of_base58 "11111111111111111111111111111111") in
  let* rent_key :=
    lift (PublicKey_of_base58 "SysvarRent111111111111111111111111111111111") in
  let* new_update_auth :=
    lift (PublicKey_of_base58 "VLawmZTgLAbdeqrU579ohsdey9H1h3Mi1UeUJpg2mQB") in
  ret (mkResolved meta_program minter_program associated_program mint_kp
         rugged_mint (fst token_key) (fst rugged_token) (fst meta_key)
         (fst rugged_metadata) (fst auth_key) sys_key rent_key new_update_auth).

(** Lines 165-177: [account_0], ..., [account_12], in the order line
    213 lists them. *)
Definition accounts (payer_pk : PublicKey) (a : Resolved) : list AccountMeta :=
  [ mkAccountMeta payer_pk                 true  true;
    mkAccountMeta (rugged_mint a)          false true;
    mkAccountMeta (sys_key a)              false false;
    mkAccountMeta (token_key a)            false true;
    mkAccountMeta (publicKey (mint_kp a))  false true;
    mkAccountMeta (meta_key a)             false true;
    mkAccountMeta (meta_program a)         false false;
    mkAccountMeta (rent_key a)             false false;
    mkAccountMeta (auth_key a)             false true;
    mkAccountMeta (TOKEN_PROGRAM_ID X)     false false;
    mkAccountMeta (rugged_metadata a)      false true;
    mkAccountMeta (rugged_token a)         false true;
    mkAccountMeta (new_update_auth a)      false true ].

(** Lines 179-235: the two rent queries, the five instructions, the
    transaction and its submission.  [keys] is the array of line 213. *)
Definition submit (keys : list AccountMeta) (a : Resolved) : M unit :=
  let* c := defined "connection" connection in
  let* mintRent :=
    perform (EGetMinimumBalanceForRentExemption c (MintLayout_span X))
      (getMinimumBalanceForRentExemption X c (MintLayout_span X)) in
  let* c := defined "connection" connection in
  let* tokenRent :=
    perform (EGetMinimumBalanceForRentExemption c (AccountLayout_span X))
      (getMinimumBalanceForRentExemption X c (AccountLayout_span X)) in
  let* kp := defined "payer" payer in
  let mintAccount :=
    SystemProgram_createAccount
      (publicKey kp) (publicKey (mint_kp a)) mintRent (MintLayout_span X)
      (TOKEN_PROGRAM_ID X) in
  let tokenAccount :=
    Token_createAssociatedTokenAccountInstruction
      (associated_program a) (TOKEN_PROGRAM_ID X) (publicKey (mint_kp a))
      (token_key a) (publicKey kp) (publicKey kp) in
  let create_token :=
    Token_createInitMintInstruction
      (TOKEN_PROGRAM_ID X) (publicKey (mint_kp a)) 0 (publicKey kp) None in
  let mint_into_token_account :=
    Token_createMintToInstruction
      (TOKEN_PROGRAM_ID X) (publicKey (mint_kp a)) (token_key a)
      (publicKey kp) [] 1 in
  let* pid := defined "programId" programId in
  let instruction := new_TransactionInstruction keys pid [] in
  let transaction :=
    Transaction_add new_Transaction
      [mintAccount; create_token; tokenAccount; mint_into_token_account;
       instruction] in
  let* c := defined "connection" connection in
  let* a' :=
    perform
      (ESendAndConfirmTransaction c transaction [kp; mint_kp a]
         (mkConfirmOptions (Some true) None None))
      (sendAndConfirmTransaction X c transaction [kp; mint_kp a]
         (mkConfirmOptions (Some true) None None)) in
  console_log [LogStr a'].

Definition testContract : M unit :=
  let* a := resolve in
  let* kp := defined "payer" payer in
  submit (accounts (publicKey kp) a) a.

(** *** main *)

Definition main : M unit :=
  (* Establish connection to the cluster *)
  let* _ := establishConnection in
  (* our dev wallet *)
  let* _ := establishPayer in
  (* init the index account *)
  let* _ := checkAccounts in
  (* run the contract *)
  testContract.

End Client.

(** ** The specification's vocabulary *)

(** The five instruction kinds of section 4.4. *)
Inductive InstructionKind : Type :=
| CreateAccount
| InitializeMint
| CreateAssociatedAccount
| MintTo
| CustomInvoke.

Definition kind (i : TransactionInstruction) : InstructionKind :=
  match i with
  | SystemProgram_createAccount _ _ _ _ _ => CreateAccount
  | Token_createInitMintInstruction _ _ _ _ _ => InitializeMint
  | Token_createAssociatedTokenAccountInstruction _ _ _ _ _ _ =>
      CreateAssociatedAccount
  | Token_createMintToInstruction _ _ _ _ _ _ => MintTo
  | new_TransactionInstruction _ _ _ => CustomInvoke
  end.

(** The thirteen roles of the table in section 4.4, top to bottom. *)
Inductive Role : Type :=
| RolePayer
| RoleSecondaryMint
| RoleSystemProgram
| RoleAssociatedTokenAccount
| RoleNewMint
| RoleMetadataRecord
| RoleMetadataProgram
| RoleRentSysvar
| RoleAuthority
| RoleTokenProgram
| RoleSecondaryMetadataRecord
| RoleSecondaryAssociatedAccount
| RoleNewUpdateAuthority.

(** The table itself: role, signer, writable. *)
Definition TEMPLATE : list (Role * bool * bool) :=
  [ (RolePayer,                      true,  true);
    (RoleSecondaryMint,              false, true);
    (RoleSystemProgram,              false, false);
    (RoleAssociatedTokenAccount,     false, true);
    (RoleNewMint,                    false, true);
    (RoleMetadataRecord,             false, true);
    (RoleMetadataProgram,            false, false);
    (RoleRentSysvar,                 false, false);
    (RoleAuthority,                  false, true);
    (RoleTokenProgram,               false, false);
    (RoleSecondaryMetadataRecord,    false, true);
    (RoleSecondaryAssociatedAccount, false, true);
    (RoleNewUpdateAuthority,         false, true) ].

(** The account list the template stands for once every role has an
    address (section 4.3). *)
Definition instantiate (address : Role -> PublicKey)
    (template : list (Role * bool * bool)) : list AccountMeta :=
  map (fun e => mkAccountMeta (address e.1.1) e.1.2 e.2) template.

(** The signer and writable flags of an account list, in order. *)
Definition flags (keys : list AccountMeta) : list (bool * bool) :=
  map (fun k => (isSigner k, isWritable k)) keys.

(** The address [testContract] gives each role. *)
Definition role_address {Net} (X : Externals Net) (payer_pk : PublicKey)
    (a : Resolved) (r : Role) : PublicKey :=
  match r with
  | RolePayer => payer_pk
  | RoleSecondaryMint => rugged_mint a
  | RoleSystemProgram => sys_key a
  | RoleAssociatedTokenAccount => token_key a
  | RoleNewMint => publicKey (mint_kp a)
  | RoleMetadataRecord => meta_key a
  | RoleMetadataProgram => meta_program a
  | RoleRentSysvar => rent_key a
  | RoleAuthority => auth_key a
  | RoleTokenProgram => TOKEN_PROGRAM_ID X
  | RoleSecondaryMetadataRecord => rugged_metadata a
  | RoleSecondaryAssociatedAccount => rugged_token a
  | RoleNewUpdateAuthority => new_update_auth a
  end.


(** What lines 113-162 make of the payer [kp], the program id [pid]
    and the generated key pair [mint]: every literal decoded, every
    derived address the result of [derive] on the seeds and the owner
    the source passes. *)
Definition resolution {Net} (X : Externals Net) (kp : Keypair) (pid : PublicKey)
    (mint : Keypair) (a : Resolved) : Prop :=
  PublicKey_of_base58 "metaqbxxUerdq28cj1RbAWkYQm3ybzjb6a8bt518x1s"
    = inr (meta_program a) /\
  minter_program a = pid /\
  PublicKey_of_base58 "ATokenGPvbdGVxr1b2hvZbsiqW5xWH25efTNsLJA8knL"
    = inr (associated_program a) /\
  mint_kp a = mint /\
  PublicKey_of_base58 "GQFdQvFMjkq5x1Ny4nsEqRgcwdedJWpq3Fsy5KqjGKSm"
    = inr (rugged_mint a) /\
  (exists bump,
     derive X
       [toBuffer (publicKey kp); toBuffer (TOKEN_PROGRAM_ID X);
        toBuffer (publicKey mint)]
       (associated_program a) = inr (token_key a, bump)) /\
  (exists bump,
     derive X
       [toBuffer (publicKey kp); toBuffer (TOKEN_PROGRAM_ID X);
        toBuffer (rugged_mint a)]
       (associated_program a) = inr (rugged_token a, bump)) /\
  (exists bump,
     derive X
       [Buffer_from "metadata"; toBuffer (meta_program a);
        toBuffer (publicKey mint)]
       (meta_program a) = inr (meta_key a, bump)) /\
  (exists bump,
     derive X
       [Buffer_from "metadata"; toBuffer (meta_program a);
        toBuffer (rugged_mint a)]
       (meta_program a) = inr (rugged_metadata a, bump)) /\
  (exists bump,
     derive X
       [Buffer_from "amoebit_minter"; toBuffer pid;
        Buffer_from "amoebit_minter"]
       pid = inr (auth_key a, bump)) /\
  PublicKey_of_base58 "11111111111111111111111111111111" = inr (sys_key a) /\
  PublicKey_of_base58 "SysvarRent111111111111111111111111111111111"
    = inr (rent_key a) /\
  PublicKey_of_base58 "VLawmZTgLAbdeqrU579ohsdey9H1h3Mi1UeUJpg2mQB"
    = inr (new_update_auth a).

(** ** A model cluster

    A small concrete outside world on which the client can be run: a
    ledger of balances, a faucet that either credits an airdrop or
    silently does nothing, and a counter that seeds the generated key
    pairs.  The hash and the curve test are toys; they only make the
    bump search run. *)

Module Localnet.

Record Ledger : Type := mkLedger {
  balances : gmap Z Z;
  faucet : bool;
  generated : Z
}.

Definition balance_of (l : Ledger) (pk : PublicKey) : Z :=
  default 0 (balances l !! bn pk).

Definition credit (l : Ledger) (pk : PublicKey) (amount : Z) : Ledger :=
  mkLedger (<[bn pk := balance_of l pk + amount]> (balances l))
    (faucet l) (generated l).

Definition wallet : Keypair := mkKeypair (mkPublicKey 7) [].

Definition program : Keypair := mkKeypair (mkPublicKey 11) [].

Definition toy_hash (b : Buffer) : Buffer :=
  toBuffer (mkPublicKey ((be_value b * 31 + 7) mod 2 ^ 256)).

Definition externals : Externals Ledger := {|
  getRpcUrl := fun l => (inr "http://localhost:8899", l);
  getPayer := fun l => (inr wallet, l);
  createKeypairFromFile := fun _ l => (inr program, l);
  valid_endpoint := fun url =>
    String.prefix "http://" url || String.prefix "https://" url;
  getVersion := fun _ l => (inr "1.8.0", l);
  getRecentBlockhash := fun _ l =>
    (inr (mkRecentBlockhash "blockhash" (mkFeeCalculator 50)), l);
  getBalance := fun _ pk l => (inr (balance_of l pk), l);
  requestAirdrop := fun _ pk amount l =>
    (inr "airdrop", if faucet l then credit l pk amount else l);
  confirmTransaction := fun _ _ l => (inr tt, l);
  getAccountInfo := fun _ _ l => (inr (Some (mkAccountInfo true)), l);
  getMinimumBalanceForRentExemption := fun _ len l =>
    (inr ((128 + len) * 6960), l);
  sendAndConfirmTransaction := fun _ _ _ _ l => (inr "signature", l);
  Keypair_generate := fun l =>
    (mkKeypair (mkPublicKey (1000 + generated l)) [],
     mkLedger (balances l) (faucet l) (generated l + 1));
  existsSync := fun _ _ => true;
  LAMPORTS_PER_SOL := 1000000000;
  TOKEN_PROGRAM_ID :=
    mkPublicKey
      3106054211088883198575105191760876350940303353676611666299516346430146937001;
  MintLayout_span := 82;
  AccountLayout_span := 165;
  PROGRAM_SO_PATH := "dist/program/test.so";
  PROGRAM_KEYPAIR_PATH := "dist/program/amoebit_minter-keypair.json";
  sha256 := toy_hash;
  is_on_curve := fun h => Z.odd (be_value h);
  PDA_MARKER := Buffer_from "ProgramDerivedAddress"
|}.

(** The same primitives of address derivation with no cluster behind
    them: every call to the outside fails. *)
Definition offline : Externals unit := {|
  getRpcUrl := fun u => (inl (Error "offline"), u);
  getPayer := fun u => (inl (Error "offline"), u);
  createKeypairFromFile := fun _ u => (inl (Error "offline"), u);
  valid_endpoint := valid_endpoint externals;
  getVersion := fun _ u => (inl (Error "offline"), u);
  getRecentBlockhash := fun _ u => (inl (Error "offline"), u);
  getBalance := fun _ _ u => (inl (Error "offline"), u);
  requestAirdrop := fun _ _ _ u => (inl (Error "offline"), u);
  confirmTransaction := fun _ _ u => (inl (Error "offline"), u);
  getAccountInfo := fun _ _ u => (inl (Error "offline"), u);
  getMinimumBalanceForRentExemption := fun _ _ u => (inl (Error "offline"), u);
  sendAndConfirmTransaction := fun _ _ _ _ u => (inl (Error "offline"), u);
  Keypair_generate := fun u => (mkKeypair (mkPublicKey 1) [], u);
  existsSync := fun _ _ => false;
  LAMPORTS_PER_SOL := LAMPORTS_PER_SOL externals;
  TOKEN_PROGRAM_ID := TOKEN_PROGRAM_ID externals;
  MintLayout_span := MintLayout_span externals;
  AccountLayout_span := AccountLayout_span externals;
  PROGRAM_SO_PATH := PROGRAM_SO_PATH externals;
  PROGRAM_KEYPAIR_PATH := PROGRAM_KEYPAIR_PATH externals;
  sha256 := toy_hash;
  is_on_curve := fun h => Z.odd (be_value h);
  PDA_MARKER := Buffer_from "ProgramDerivedAddress"
|}.

(** A fresh process: no module variable set, an empty ledger. *)
Definition boot (faucet : bool) : World Ledger :=
  mkWorld (mkGlobals None None None) (mkLedger ∅ faucet 0).

(** The world once [main] has run its first three steps. *)
Definition ready : World Ledger :=
  final
    ((let* _ := establishConnection externals in
      let* _ := establishPayer externals in
      checkAccounts externals) (boot true)).

Definition cluster : Connection :=
  mkConnection "http://localhost:8899" "confirmed".

(** The key pair [testContract] generates when started in [ready]. *)
Definition minted : Keypair :=
  Eval vm_compute in (Keypair_generate externals (outside ready)).1.

(** The addresses [testContract] resolves when started in [ready]. *)
Definition resolved : Resolved :=
  Eval vm_compute in
    match resolve externals ready with
    | mkOutcome (inr a) _ _ => a
    | _ =>
        let z := mkPublicKey 0 in
        mkResolved z z z minted z z z z z z z z z
    end.

(** The transaction [testContract] hands to the cluster when started
    in [ready]. *)
Definition sent : Transaction :=
  Eval vm_compute in
    match
      omap (fun e =>
              match e with
              | ESendAndConfirmTransaction _ t _ _ => Some t
              | _ => None
              end)
        (emitted (testContract externals ready))
    with
    | t :: _ => t
    | [] => new_Transaction
    end.

(** The options object of line 232. *)
Definition skipping : ConfirmOptions := mkConfirmOptions (Some true) None None.


(** A world where the faucet is dry: [establishConnection] has run,
    the payer is not yet loaded. *)
Definition dry : World Ledger :=
  final (establishConnection externals (boot false)).

End Localnet.

(** The transaction lines 182-225 assemble from the payer [kp], the
    program id [pid], the rent [mintRent] of the mint account, the
    account list [keys] and the resolved addresses [a]. *)
Definition recipe {Net} (X : Externals Net) (kp : Keypair) (pid : PublicKey)
    (mintRent : Z) (keys : list AccountMeta) (a : Resolved) : Transaction :=
  mkTransaction
    [ SystemProgram_createAccount (publicKey kp) (publicKey (mint_kp a))
        mintRent (MintLayout_span X) (TOKEN_PROGRAM_ID X);
      Token_createInitMintInstruction (TOKEN_PROGRAM_ID X)
        (publicKey (mint_kp a)) 0 (publicKey kp) None;
      Token_createAssociatedTokenAccountInstruction
        (associated_program a) (TOKEN_PROGRAM_ID X)
        (publicKey (mint_kp a)) (token_key a) (publicKey kp) (publicKey kp);
      Token_createMintToInstruction (TOKEN_PROGRAM_ID X)
        (publicKey (mint_kp a)) (token_key a) (publicKey kp) [] 1;
      new_TransactionInstruction keys pid [] ].

(** ** The model cluster with faults

    The model cluster again, with three switches: the balance query
    throws, the program account does not exist, the cluster rejects
    what is submitted. *)

Module Outage.

Record Faults : Type := mkFaults {
  balance_down : bool;
  program_missing : bool;
  submission_rejected : bool
}.

Definition cluster_with (f : Faults) : Externals Localnet.Ledger := {|
  getRpcUrl := getRpcUrl Localnet.externals;
  getPayer := getPayer Localnet.externals;
  createKeypairFromFile := createKeypairFromFile Localnet.externals;
  valid_endpoint := valid_endpoint Localnet.externals;
  getVersion := getVersion Localnet.externals;
  getRecentBlockhash := getRecentBlockhash Localnet.externals;
  getBalance := fun c pk l =>
    if balance_down f then (inl (Error "balance unavailable"), l)
    else getBalance Localnet.externals c pk l;
  requestAirdrop := requestAirdrop Localnet.externals;
  confirmTransaction := confirmTransaction Localnet.externals;
  getAccountInfo := fun c pk l =>
    if program_missing f then (inr None, l)
    else getAccountInfo Localnet.externals c pk l;
  getMinimumBalanceForRentExemption :=
    getMinimumBalanceForRentExemption Localnet.externals;
  sendAndConfirmTransaction := fun c t s o l =>
    if submission_rejected f then (inl (Error "custom program error: 0x1"), l)
    else sendAndConfirmTransaction Localnet.externals c t s o l;
  Keypair_generate := Keypair_generate Localnet.externals;
  existsSync := existsSync Localnet.externals;
  LAMPORTS_PER_SOL := LAMPORTS_PER_SOL Localnet.externals;
  TOKEN_PROGRAM_ID := TOKEN_PROGRAM_ID Localnet.externals;
  MintLayout_span := MintLayout_span Localnet.externals;
  AccountLayout_span := AccountLayout_span Localnet.externals;
  PROGRAM_SO_PATH := PROGRAM_SO_PATH Localnet.externals;
  PROGRAM_KEYPAIR_PATH := PROGRAM_KEYPAIR_PATH Localnet.externals;
  sha256 := sha256 Localnet.externals;
  is_on_curve := is_on_curve Localnet.externals;
  PDA_MARKER := PDA_MARKER Localnet.externals
|}.

Definition no_balance : Externals Localnet.Ledger :=
  cluster_with (mkFaults true false false).

Definition undeployed : Externals Localnet.Ledger :=
  cluster_with (mkFaults false true false).

Definition rejecting : Externals Localnet.Ledger :=
  cluster_with (mkFaults false false true).

End Outage.

(** ** Running computations step by step *)

Section Run.

Context {Net : Type}.

Lemma emitted_bind {A B} (m : M Net A) (k : A -> M Net B) w :
  emitted (bind m k w) =
  emitted (m w) ++
    match result (m w) with
    | inl _ => []
    | inr a => emitted (k a (final (m w)))
    end.
Proof.
  unfold bind. destruct (result (m w)); cbn; [by rewrite app_nil_r | done].
Qed.

Lemma result_bind {A B} (m : M Net A) (k : A -> M Net B) w :
  result (bind m k w) =
    match result (m w) with
    | inl e => inl e
    | inr a => result (k a (final (m w)))
    end.
Proof. unfold bind. by destruct (result (m w)). Qed.

Lemma final_bind {A B} (m : M Net A) (k : A -> M Net B) w :
  final (bind m k w) =
    match result (m w) with
    | inl e => final (m w)
    | inr a => final (k a (final (m w)))
    end.
Proof. unfold bind. by destruct (result (m w)). Qed.

End Run.

(** Expose the primitive at the head of a computation. *)
Ltac head_prims :=
  unfold findProgramAddress, generate;
  unfold perform, defined, lift, console_log, ret, throw, read, assign;
  cbn [result final emitted globals outside fst snd
       connection payer programId]; cbv beta.

(** Case on the answer the head primitive depends on; an answer already
    known from a hypothesis is used instead. *)
Ltac case_head :=
  first
    [ match goal with
      | H : _ = Some _ |- _ => progress rewrite H
      | H : _ = None |- _ => progress rewrite H
      | H : _ = (_, _) |- _ => progress rewrite H
      end
    | match goal with
      | |- context [match ?r with inl _ => _ | inr _ => _ end] =>
          lazymatch r with
          | context [match _ with _ => _ end] => fail
          | context [result _] => fail
          | fst ?p => destruct p as [[?|?] ?] eqn:?
          | _ => destruct r eqn:?
          end
      | |- context [match ?r with Some _ => _ | None => _ end] =>
          lazymatch r with
          | context [match _ with _ => _ end] => fail
          | _ => destruct r eqn:?
          end
      end ];
  cbn [result final emitted globals outside fst snd
       connection payer programId]; cbv beta.

(** One [let*]: unfold the outermost bind of every projection, then
    settle its head. *)
Ltac exec_step :=
  progress rewrite ?emitted_bind, ?result_bind, ?final_bind;
  head_prims; repeat (case_head; head_prims).

Ltac run_all := repeat exec_step.

(** Go on after a branch of the source has been decided by hand. *)
Ltac resume := head_prims; repeat (case_head; head_prims); run_all.

(** A conjunction whose parts are hypotheses or hold by computation. *)
Ltac conj_known :=
  repeat (split; [solve [assumption | reflexivity] |]);
  solve [assumption | reflexivity].

(** Membership of an event in an explicit list, case by case. *)
Ltac pick_event H :=
  rewrite ?app_nil_l, ?app_nil_r in H; cbn [app] in H;
  repeat (apply elem_of_cons in H as [H|H]; [try discriminate H|]);
  try (apply elem_of_nil in H; contradiction).

(** ** Numbers *)

(** Below 2^53 in magnitude every integer is a double. *)
Lemma nearest_double_exact (z : Z) :
  Z.abs z < 2 ^ 53 -> nearest_double z = z.
Proof.
  intros H. unfold nearest_double. cbv zeta.
  destruct (Z.ltb_spec (Z.abs z) (2 ^ 53)) as [_ | Hge]; [reflexivity | lia].
Qed.

(** Rounding keeps a positive integer positive. *)
Lemma nearest_double_pos (z : Z) : 0 < z -> 0 < nearest_double z.
Proof.
  intros Hz. unfold nearest_double. cbv zeta.
  rewrite (Z.abs_eq z) by lia.
  destruct (Z.ltb_spec z (2 ^ 53)) as [_ | Hbig]; [exact Hz |].
  rewrite (Z.sgn_pos z Hz), Z.mul_1_l.
  assert (H53 : 53 <= Z.log2 z).
  { rewrite <- (Z.log2_pow2 53) by lia. apply Z.log2_le_mono. exact Hbig. }
  set (u := 2 ^ (Z.log2 z - 52)).
  assert (Hu : 0 < u) by (apply Z.pow_pos_nonneg; lia).
  assert (Huz : u <= z).
  { transitivity (2 ^ Z.log2 z).
    - apply Z.pow_le_mono_r; lia.
    - apply Z.log2_spec. exact Hz. }
  assert (Hq : 1 <= z / u).
  { apply Z.div_le_lower_bound; lia. }
  apply Z.mul_pos_pos; [| exact Hu].
  destruct (2 * (z mod u) <? u); [lia |].
  destruct (2 * (z mod u) =? u); [| lia].
  destruct (Z.even (z / u)); lia.
Qed.

(** ** Address derivation *)

Section Derivation.

Context {Net1 Net2 : Type} (X1 : Externals Net1) (X2 : Externals Net2).

Hypothesis same_hash : forall b, sha256 X1 b = sha256 X2 b.
Hypothesis same_curve : forall h, is_on_curve X1 h = is_on_curve X2 h.
Hypothesis same_marker : PDA_MARKER X1 = PDA_MARKER X2.

(** The bump search looks at nothing but the seeds, the owner and the
    three primitives. *)
Lemma search_depends_on_primitives seeds ownerProgram (n : nat) :
  search X1 seeds ownerProgram n = search X2 seeds ownerProgram n.
Proof using same_hash same_curve same_marker.
  induction n as [|n IH]; [reflexivity |].
  cbn [search]. rewrite same_marker, same_hash, same_curve, IH. reflexivity.
Qed.

(** C9. The address derivation is a function of its inputs alone. Two
    calls on the same seeds and owner return the same (address, bump)
    pair or the same error, in whatever two worlds they are made, and
    even against two different clusters, as long as the hash, the curve
    test and the suffix are the same; a call changes nothing in the
    world and makes no external call. *)
Theorem findProgramAddress_deterministic
    (seeds : list Buffer) (ownerProgram : PublicKey)
    (w1 : World Net1) (w2 : World Net2) :
  result (findProgramAddress X1 seeds ownerProgram w1)
    = result (findProgramAddress X2 seeds ownerProgram w2) /\
  final (findProgramAddress X1 seeds ownerProgram w1) = w1 /\
  emitted (findProgramAddress X1 seeds ownerProgram w1) = [] /\
  final (findProgramAddress X2 seeds ownerProgram w2) = w2 /\
  emitted (findProgramAddress X2 seeds ownerProgram w2) = [].
Proof using same_hash same_curve same_marker.
  unfold findProgramAddress, lift, derive. cbn [result final emitted].
  rewrite search_depends_on_primitives. repeat split.
Qed.

End Derivation.

(** What the search returns is the first bump, counting down, whose
    hash is off the curve, with the address made of that hash. *)
Lemma search_first_off_curve {Net} (X : Externals Net)
    seeds ownerProgram (n : nat) address bump :
  search X seeds ownerProgram n = inr (address, bump) ->
  let hash b :=
    sha256 X
      (concat seeds ++ [byte_of_Z b] ++ toBuffer ownerProgram ++ PDA_MARKER X) in
  0 <= bump < Z.of_nat n /\
  is_on_curve X (hash bump) = false /\
  address = PublicKey_of_bytes (hash bump) /\
  forall b, bump < b < Z.of_nat n -> is_on_curve X (hash b) = true.
Proof.
  cbv zeta. induction n as [|n IH]; [discriminate |].
  cbn [search]. intros H.
  set (h := sha256 X
              (concat seeds ++ [byte_of_Z (Z.of_nat n)] ++ toBuffer ownerProgram
                 ++ PDA_MARKER X)) in H.
  destruct (is_on_curve X h) eqn:Hcurve.
  - destruct (IH H) as (Hb & Hoff & Haddr & Hup).
    repeat split; [lia | lia | exact Hoff | exact Haddr |].
    intros b Hrange.
    destruct (decide (b = Z.of_nat n)) as [-> | Hne]; [exact Hcurve |].
    apply Hup. lia.
  - injection H as <- <-.
    repeat split; [lia | lia | exact Hcurve |].
    intros b Hrange. lia.
Qed.

(** ** What testContract does *)

(** The six address literals of the source are well-formed: each
    decodes to exactly 32 bytes, so no [new PublicKey] throws. *)
Lemma literals_decode :
  PublicKey_of_base58 "metaqbxxUerdq28cj1RbAWkYQm3ybzjb6a8bt518x1s"
    = inr (mkPublicKey
        5174030077954762766333876384358785143419896121246119714368009399963057924422) /\
  PublicKey_of_base58 "ATokenGPvbdGVxr1b2hvZbsiqW5xWH25efTNsLJA8knL"
    = inr (mkPublicKey
        63590851936555425018482094543133168213809614203979002813017495418995103889497) /\
  PublicKey_of_base58 "GQFdQvFMjkq5x1Ny4nsEqRgcwdedJWpq3Fsy5KqjGKSm"
    = inr (mkPublicKey
        103502258328541548079245889601167605207241825178460952273949145540601544367062) /\
  PublicKey_of_base58 "11111111111111111111111111111111"
    = inr (mkPublicKey 0) /\
  PublicKey_of_base58 "SysvarRent111111111111111111111111111111111"
    = inr (mkPublicKey
        3010411246019284437244212147455409835011261068170932596721577831542904848384) /\
  PublicKey_of_base58 "VLawmZTgLAbdeqrU579ohsdey9H1h3Mi1UeUJpg2mQB"
    = inr (mkPublicKey
        3283522300506048026675225328740504166912918578636694939067224921544666318888).
Proof. vm_compute. repeat split. Qed.

(** From here on the decoder and the bump search are black boxes, and
    [bind] is only opened through the three lemmas above. *)
Opaque PublicKey_of_base58 derive toBuffer Buffer_from bind.

Section Facts.

Context {Net : Type} (X : Externals Net).

(** The only external call of lines 113-162 is the key generation. *)
Lemma resolve_emits (w : World Net) (e : Event) :
  e ∈ emitted (resolve X w) -> e = EKeypairGenerate.
Proof.
  destruct w as [g n]. unfold resolve. run_all.
  all: intros H; pick_event H; done.
Qed.

(** When lines 113-162 go through, the addresses are the ones
    [resolution] describes, and the world has only lost the random
    bits of one key pair. *)
Lemma resolve_inv (w : World Net) (a : Resolved) :
  result (resolve X w) = inr a ->
  exists kp pid,
    payer (globals w) = Some kp /\
    programId (globals w) = Some pid /\
    resolution X kp pid (Keypair_generate X (outside w)).1 a /\
    final (resolve X w)
      = mkWorld (globals w) (Keypair_generate X (outside w)).2 /\
    emitted (resolve X w) = [EKeypairGenerate].
Proof.
  destruct w as [g n]. unfold resolve. run_all.
  all: intros E; try discriminate E.
  repeat match goal with p : (_ * _)%type |- _ => destruct p end.
  injection E as <-. cbn [fst snd].
  eexists _, _. unfold resolution.
  cbn [meta_program minter_program associated_program mint_kp rugged_mint
       token_key rugged_token meta_key rugged_metadata auth_key sys_key
       rent_key new_update_auth].
  repeat split; eauto.
Qed.

(** Lines 179-235 submit at most once, and what they submit is the
    transaction spelled out in the source. *)
Lemma submit_emits keys a (w : World Net) c t s o :
  ESendAndConfirmTransaction c t s o ∈ emitted (submit X keys a w) ->
  exists kp pid mintRent,
    payer (globals w) = Some kp /\
    programId (globals w) = Some pid /\
    connection (globals w) = Some c /\
    t = mkTransaction
          [SystemProgram_createAccount (publicKey kp) (publicKey (mint_kp a))
             mintRent (MintLayout_span X) (TOKEN_PROGRAM_ID X);
           Token_createInitMintInstruction (TOKEN_PROGRAM_ID X)
             (publicKey (mint_kp a)) 0 (publicKey kp) None;
           Token_createAssociatedTokenAccountInstruction
             (associated_program a) (TOKEN_PROGRAM_ID X)
             (publicKey (mint_kp a)) (token_key a) (publicKey kp) (publicKey kp);
           Token_createMintToInstruction (TOKEN_PROGRAM_ID X)
             (publicKey (mint_kp a)) (token_key a) (publicKey kp) [] 1;
           new_TransactionInstruction keys pid []] /\
    s = [kp; mint_kp a] /\
    o = mkConfirmOptions (Some true) None None.
Proof.
  destruct w as [g n]. unfold submit. run_all.
  all: intros H; pick_event H.
  all: simplify_eq; eauto 10.
Qed.

(** The whole of [testContract]. *)
Lemma testContract_emits (w : World Net) c t s o :
  ESendAndConfirmTransaction c t s o ∈ emitted (testContract X w) ->
  exists kp pid mintRent a,
    payer (globals w) = Some kp /\
    programId (globals w) = Some pid /\
    connection (globals w) = Some c /\
    resolution X kp pid (Keypair_generate X (outside w)).1 a /\
    t = mkTransaction
          [SystemProgram_createAccount (publicKey kp) (publicKey (mint_kp a))
             mintRent (MintLayout_span X) (TOKEN_PROGRAM_ID X);
           Token_createInitMintInstruction (TOKEN_PROGRAM_ID X)
             (publicKey (mint_kp a)) 0 (publicKey kp) None;
           Token_createAssociatedTokenAccountInstruction
             (associated_program a) (TOKEN_PROGRAM_ID X)
             (publicKey (mint_kp a)) (token_key a) (publicKey kp) (publicKey kp);
           Token_createMintToInstruction (TOKEN_PROGRAM_ID X)
             (publicKey (mint_kp a)) (token_key a) (publicKey kp) [] 1;
           new_TransactionInstruction (accounts X (publicKey kp) a) pid []] /\
    s = [kp; mint_kp a] /\
    o = mkConfirmOptions (Some true) None None.
Proof.
  unfold testContract. rewrite emitted_bind.
  destruct (result (resolve X w)) as [e|a] eqn:Hres.
  - rewrite app_nil_r. intros H%resolve_emits. discriminate H.
  - destruct (resolve_inv w a Hres) as (kp & pid & Hkp & Hpid & Hres' & Hfin & Hev).
    rewrite Hev, Hfin. intros H.
    apply elem_of_cons in H as [H|H]; [discriminate H|].
    rewrite emitted_bind in H. head_prims. unfold defined in H.
    cbn [globals result final emitted] in H. rewrite Hkp in H.
    cbn [globals result final emitted app] in H.
    apply submit_emits
      in H as (kp' & pid' & mintRent & Hkp' & Hpid' & Hc & -> & -> & ->).
    cbn [globals] in Hkp', Hpid', Hc.
    rewrite Hkp in Hkp'. injection Hkp' as <-.
    rewrite Hpid in Hpid'. injection Hpid' as <-.
    exists kp, pid, mintRent, a.
    exact (conj Hkp (conj Hpid (conj Hc (conj Hres'
             (conj eq_refl (conj eq_refl eq_refl)))))).
Qed.

(** *** The transaction that is submitted *)

(** [accounts] is the template of section 4.4 with each role replaced
    by its address. *)
Lemma accounts_template (payer_pk : PublicKey) (a : Resolved) :
  accounts X payer_pk a = instantiate (role_address X payer_pk a) TEMPLATE.
Proof. reflexivity. Qed.

(** C1. Whatever the world and the module variables, the custom
    instruction of a submitted transaction is the fifth one; its
    account list is the thirteen-entry template instantiated with the
    resolved addresses, so its signer and writable flags are, in
    order, those of the table; and its data is empty. *)
Theorem custom_invoke_matches_template (w : World Net) c t s o :
  ESendAndConfirmTransaction c t s o ∈ emitted (testContract X w) ->
  exists kp pid a keys,
    payer (globals w) = Some kp /\
    programId (globals w) = Some pid /\
    resolution X kp pid (Keypair_generate X (outside w)).1 a /\
    instructions t !! 4%nat = Some (new_TransactionInstruction keys pid []) /\
    keys = instantiate (role_address X (publicKey kp) a) TEMPLATE /\
    length keys = 13%nat /\
    flags keys =
      [ (true, true);
        (false, true); (false, false); (false, true); (false, true);
        (false, true); (false, false); (false, false); (false, true);
        (false, false); (false, true); (false, true); (false, true) ].
Proof.
  intros H.
  apply testContract_emits
    in H as (kp & pid & mintRent & a & Hkp & Hpid & Hc & Hres & -> & -> & ->).
  exists kp, pid, a, (accounts X (publicKey kp) a).
  conj_known.
Qed.

(** C2. The instruction list of a submitted transaction is, in this
    order, CreateAccount, InitializeMint, CreateAssociatedAccount,
    MintTo, CustomInvoke; and adding a list of instructions to a new
    transaction keeps the list as it is. *)
Theorem instructions_in_fixed_order (w : World Net) c t s o :
  ESendAndConfirmTransaction c t s o ∈ emitted (testContract X w) ->
  kind <$> instructions t =
    [CreateAccount; InitializeMint; CreateAssociatedAccount; MintTo;
     CustomInvoke] /\
  (forall items, instructions (Transaction_add new_Transaction items) = items).
Proof.
  intros H.
  apply testContract_emits
    in H as (kp & pid & mintRent & a & Hkp & Hpid & Hc & Hres & -> & -> & ->).
  split; [reflexivity | intros items; reflexivity].
Qed.

(** C5. In a submitted transaction the metadata record (account 5) is
    derived from the seeds "metadata", metadata program, new mint
    under the metadata program; the authority (account 8) from
    "amoebit_minter", minter program, "amoebit_minter" under the
    minter program, which is the program the instruction calls; the
    associated token account (account 3) from payer, token program,
    new mint under the associated-account program. *)
Theorem derived_addresses_seeds_and_owners (w : World Net) c t s o :
  ESendAndConfirmTransaction c t s o ∈ emitted (testContract X w) ->
  exists kp pid meta assoc keys metadata authority ata b1 b2 b3,
    let mint := publicKey (Keypair_generate X (outside w)).1 in
    payer (globals w) = Some kp /\
    programId (globals w) = Some pid /\
    PublicKey_of_base58 "metaqbxxUerdq28cj1RbAWkYQm3ybzjb6a8bt518x1s"
      = inr meta /\
    PublicKey_of_base58 "ATokenGPvbdGVxr1b2hvZbsiqW5xWH25efTNsLJA8knL"
      = inr assoc /\
    derive X [Buffer_from "metadata"; toBuffer meta; toBuffer mint] meta
      = inr (metadata, b1) /\
    derive X
      [Buffer_from "amoebit_minter"; toBuffer pid;
       Buffer_from "amoebit_minter"] pid
      = inr (authority, b2) /\
    derive X
      [toBuffer (publicKey kp); toBuffer (TOKEN_PROGRAM_ID X); toBuffer mint]
      assoc
      = inr (ata, b3) /\
    instructions t !! 4%nat = Some (new_TransactionInstruction keys pid []) /\
    pubkey <$> keys !! 5%nat = Some metadata /\
    pubkey <$> keys !! 8%nat = Some authority /\
    pubkey <$> keys !! 3%nat = Some ata /\
    pubkey <$> keys !! 4%nat = Some mint /\
    pubkey <$> keys !! 0%nat = Some (publicKey kp).
Proof.
  intros H.
  apply testContract_emits
    in H as (kp & pid & mintRent & a & Hkp & Hpid & Hc & Hres & -> & -> & ->).
  destruct Hres as
    (Hmeta & Hminter & Hassoc & Hmint & _ & [b3 Hata] & _ & [b1 Hmd] & _
     & [b2 Hauth] & _).
  exists kp, pid, (meta_program a), (associated_program a),
    (accounts X (publicKey kp) a), (meta_key a), (auth_key a), (token_key a),
    b1, b2, b3.
  cbv zeta.
  repeat (split; [solve [assumption | reflexivity] |]).
  split; [cbn; by rewrite Hmint | reflexivity].
Qed.

(** C6. The fourth instruction of a submitted transaction is a MintTo
    of amount 1, of the mint the first instruction creates, into the
    associated token account of the payer for that mint (the account
    the third instruction creates), with the payer as authority and no
    other signer; the payer is among the signers of the transaction. *)
Theorem mint_to_one_unit (w : World Net) c t s o :
  ESendAndConfirmTransaction c t s o ∈ emitted (testContract X w) ->
  exists kp assoc mint ata bump rent,
    payer (globals w) = Some kp /\
    instructions t !! 0%nat =
      Some (SystemProgram_createAccount (publicKey kp) mint rent
              (MintLayout_span X) (TOKEN_PROGRAM_ID X)) /\
    instructions t !! 2%nat =
      Some (Token_createAssociatedTokenAccountInstruction assoc
              (TOKEN_PROGRAM_ID X) mint ata (publicKey kp) (publicKey kp)) /\
    derive X
      [toBuffer (publicKey kp); toBuffer (TOKEN_PROGRAM_ID X); toBuffer mint]
      assoc
      = inr (ata, bump) /\
    instructions t !! 3%nat =
      Some (Token_createMintToInstruction (TOKEN_PROGRAM_ID X) mint ata
              (publicKey kp) [] 1) /\
    kp ∈ s.
Proof.
  intros H.
  apply testContract_emits
    in H as (kp & pid & mintRent & a & Hkp & Hpid & Hc & Hres & -> & -> & ->).
  destruct Hres as (_ & _ & _ & Hmint & _ & [bump Hata] & _).
  exists kp, (associated_program a), (publicKey (mint_kp a)), (token_key a),
    bump, mintRent.
  rewrite <- Hmint in Hata.
  repeat (split; [solve [assumption | reflexivity] |]).
  apply elem_of_cons; left; reflexivity.
Qed.

(** C7. The second instruction of a submitted transaction initialises
    the account the first instruction creates as a mint with 0
    decimals, the payer as mint authority and no freeze authority. *)
Theorem initialize_mint_parameters (w : World Net) c t s o :
  ESendAndConfirmTransaction c t s o ∈ emitted (testContract X w) ->
  exists kp mint rent,
    payer (globals w) = Some kp /\
    instructions t !! 0%nat =
      Some (SystemProgram_createAccount (publicKey kp) mint rent
              (MintLayout_span X) (TOKEN_PROGRAM_ID X)) /\
    instructions t !! 1%nat =
      Some (Token_createInitMintInstruction (TOKEN_PROGRAM_ID X) mint 0
              (publicKey kp) None).
Proof.
  intros H.
  apply testContract_emits
    in H as (kp & pid & mintRent & a & Hkp & Hpid & Hc & Hres & -> & -> & ->).
  exists kp, (publicKey (mint_kp a)), mintRent.
  conj_known.
Qed.

(** C8. A submission is signed by exactly two key pairs, the payer
    and the generated key pair of the new mint account, in this
    order, and its options are [skipPreflight: true] and nothing
    else. *)
Theorem submission_signers_and_options (w : World Net) c t s o :
  ESendAndConfirmTransaction c t s o ∈ emitted (testContract X w) ->
  exists kp rent,
    let mint := (Keypair_generate X (outside w)).1 in
    payer (globals w) = Some kp /\
    s = [kp; mint] /\
    instructions t !! 0%nat =
      Some (SystemProgram_createAccount (publicKey kp) (publicKey mint) rent
              (MintLayout_span X) (TOKEN_PROGRAM_ID X)) /\
    o = mkConfirmOptions (Some true) None None /\
    skipPreflight o = Some true.
Proof.
  intros H.
  apply testContract_emits
    in H as (kp & pid & mintRent & a & Hkp & Hpid & Hc & Hres & -> & -> & ->).
  destruct Hres as (_ & _ & _ & Hmint & _).
  exists kp, mintRent. cbv zeta. rewrite <- Hmint.
  conj_known.
Qed.

(** *** Conformance of what is submitted *)


(** *** establishPayer *)

(** C3, as the code has it. On a first call (payer not yet loaded),
    with a fee requirement of 5000 (100 signatures at the cluster's
    price) and a balance of 0, [establishPayer] asks for an airdrop of
    exactly 5000, waits for its confirmation, reads the balance again
    and returns normally with the payer loaded, whatever the second
    balance [b'] is. *)
Theorem establishPayer_airdrops_shortfall
    (w : World Net) c recent kp sig (b' : Z) n1 n2 n3 n4 n5 n6 :
  payer (globals w) = None ->
  connection (globals w) = Some c ->
  getRecentBlockhash X c (outside w) = (inr recent, n1) ->
  lamportsPerSignature (feeCalculator recent) * 100 = 5000 ->
  getPayer X n1 = (inr kp, n2) ->
  getBalance X c (publicKey kp) n2 = (inr 0, n3) ->
  requestAirdrop X c (publicKey kp) 5000 n3 = (inr sig, n4) ->
  confirmTransaction X c sig n4 = (inr tt, n5) ->
  getBalance X c (publicKey kp) n5 = (inr b', n6) ->
  emitted (establishPayer X w) =
    [ EGetRecentBlockhash c;
      EGetPayer;
      EGetBalance c (publicKey kp);
      ERequestAirdrop c (publicKey kp) 5000;
      EConfirmTransaction c sig;
      EGetBalance c (publicKey kp);
      EConsoleLog
        [LogStr "Using account"; LogBase58 (publicKey kp); LogStr "containing";
         LogDiv b' (LAMPORTS_PER_SOL X); LogStr "SOL to pay for fees"] ] /\
  result (establishPayer X w) = inr tt /\
  final (establishPayer X w) =
    mkWorld (mkGlobals (Some c) (Some kp) (programId (globals w))) n6.
Proof.
  destruct w as [g n]. cbn [globals outside].
  intros Hkp Hc Hrecent Hfee Hpayer Hbal Hdrop Hconf Hbal'.
  unfold establishPayer. run_all.
  unfold number_add, number_mul, number_sub. rewrite Hfee.
  change (nearest_double (0 + nearest_double 5000)) with 5000.
  cbn [Z.ltb Z.compare].
  change (nearest_double (5000 - 0)) with 5000.
  run_all. rewrite <- Hc. done.
Qed.

(** C10. Once the payer is loaded, [establishPayer] makes no airdrop
    request -- provided the balance the cluster reports is not
    negative: its only external calls are one balance query for the
    payer and the log line; it asks neither for the fee schedule nor
    for the payer again; it leaves the module variables as they are;
    and the outside world is what that one balance query leaves, so
    the balance is unchanged whenever the query is read-only. *)
Theorem establishPayer_repeat_call_no_airdrop (w : World Net) (kp : Keypair) :
  payer (globals w) = Some kp ->
  (forall c b n',
     connection (globals w) = Some c ->
     getBalance X c (publicKey kp) (outside w) = (inr b, n') -> 0 <= b) ->
  (forall c pk amount,
     ERequestAirdrop c pk amount ∉ emitted (establishPayer X w)) /\
  (forall e, e ∈ emitted (establishPayer X w) ->
     (exists c, connection (globals w) = Some c /\
                e = EGetBalance c (publicKey kp)) \/
     (exists args, e = EConsoleLog args)) /\
  globals (final (establishPayer X w)) = globals w /\
  outside (final (establishPayer X w)) =
    match connection (globals w) with
    | Some c => (getBalance X c (publicKey kp) (outside w)).2
    | None => outside w
    end /\
  (forall c,
     connection (globals w) = Some c ->
     (getBalance X c (publicKey kp) (outside w)).2 = outside w ->
     getBalance X c (publicKey kp) (outside (final (establishPayer X w)))
       = getBalance X c (publicKey kp) (outside w)).
Proof.
  destruct w as [g n]. cbn [globals outside]. intros Hkp Hbal.
  assert (Hcalls :
    (forall e, e ∈ emitted (establishPayer X (mkWorld g n)) ->
       (exists c, connection g = Some c /\ e = EGetBalance c (publicKey kp)) \/
       (exists args, e = EConsoleLog args)) /\
    globals (final (establishPayer X (mkWorld g n))) = g /\
    outside (final (establishPayer X (mkWorld g n))) =
      match connection g with
      | Some c => (getBalance X c (publicKey kp) n).2
      | None => n
      end).
  { unfold establishPayer. run_all.
    - split; [|done]. intros e H. pick_event H. left. eauto.
    - assert (Hz : (z <? 0) = false)
        by (apply Z.ltb_ge; eapply Hbal; [reflexivity | eassumption]).
      rewrite Hz. resume. split; [|done]. intros e H. pick_event H.
      + left. eauto.
      + right. eauto.
    - split; [|done]. intros e H. pick_event H. }
  destruct Hcalls as (Hev & Hglob & Hout).
  split; [|split; [exact Hev | split; [exact Hglob | split; [exact Hout |]]]].
  - intros c pk amount H.
    apply Hev in H as [(c' & _ & H) | (args & H)]; discriminate H.
  - intros c Hc Hro. rewrite Hout, Hc, Hro. reflexivity.
Qed.

End Facts.

(** ** The rest of the client *)

(** Decide the comparison or test the run is waiting for, and go on. *)
Ltac case_test :=
  match goal with
  | |- context [if (?a <? ?b) then _ else _] =>
      destruct (Z.ltb_spec a b) as [?Hlt | ?Hge]
  | |- context [if negb ?b then _ else _] => destruct b eqn:?; cbn [negb]
  | |- context [if ?b then _ else _] => destruct b eqn:?
  end; resume.

Ltac run_branches := run_all; repeat case_test.

Section More.

Context {Net : Type} (X : Externals Net).

(** *** establishConnection and establishPayer *)

(** X1. Once [getRpcUrl] has answered with a string the [Connection]
    constructor accepts, [connection] is the new connection to that URL
    with commitment "confirmed" -- also when the version query then
    throws, in which case the error is rethrown and nothing is logged;
    [payer] and [programId] are not touched. On a string that is not a
    URL the constructor throws a [TypeError]: nothing is assigned and
    the version is not asked for. *)
Theorem establishConnection_replaces_connection (w : World Net) url n1 :
  getRpcUrl X (outside w) = (inr url, n1) ->
  (valid_endpoint X url = true ->
   let c := mkConnection url "confirmed" in
   globals (final (establishConnection X w))
     = mkGlobals (Some c) (payer (globals w)) (programId (globals w)) /\
   outside (final (establishConnection X w)) = (getVersion X c n1).2 /\
   (forall e,
      (getVersion X c n1).1 = inl e ->
      result (establishConnection X w) = inl e /\
      emitted (establishConnection X w) = [EGetRpcUrl; EGetVersion c]) /\
   (forall version,
      (getVersion X c n1).1 = inr version ->
      result (establishConnection X w) = inr tt /\
      emitted (establishConnection X w) =
        [EGetRpcUrl; EGetVersion c;
         EConsoleLog
           [LogStr "Connection to cluster established:"; LogStr url;
            LogStr version]])) /\
  (valid_endpoint X url = false ->
   (exists msg, result (establishConnection X w) = inl (TypeError msg)) /\
   final (establishConnection X w) = mkWorld (globals w) n1 /\
   emitted (establishConnection X w) = [EGetRpcUrl]).
Proof.
  destruct w as [g n]. cbn [globals outside]. intros Hurl. cbv zeta.
  unfold establishConnection, new_Connection. run_branches.
  - split; intros Hv; [| discriminate Hv].
    split; [reflexivity |]. split; [reflexivity |].
    split; intros ? Hg; [injection Hg as <- | discriminate Hg].
    split; reflexivity.
  - split; intros Hv; [| discriminate Hv].
    split; [reflexivity |]. split; [reflexivity |].
    split; intros ? Hg; [discriminate Hg | injection Hg as <-].
    split; reflexivity.
  - split; intros Hv; [discriminate Hv |].
    split; [eauto |]. split; reflexivity.
Qed.

(** X2. When [getRpcUrl] throws, [establishConnection] throws the same
    error, makes no other call and leaves the module variables as they
    were. *)
Theorem establishConnection_url_failure (w : World Net) e n1 :
  getRpcUrl X (outside w) = (inl e, n1) ->
  result (establishConnection X w) = inl e /\
  final (establishConnection X w) = mkWorld (globals w) n1 /\
  emitted (establishConnection X w) = [EGetRpcUrl].
Proof.
  destruct w as [g n]. cbn [globals outside]. intros Hurl.
  unfold establishConnection, new_Connection. run_all. repeat split.
Qed.

(** X3. On a first call the fee requirement is 100 times the
    cluster's price per signature, as a double. A balance below it is
    followed by an airdrop request for the difference; a balance that
    reaches it (equality included) is followed by no request: the call
    logs the balance and returns. While the product stays below 2^53
    the requirement is exactly 100 times the price and the amount
    exactly requirement minus balance. Prices and balances are the
    64-bit counts the cluster reports. *)
Theorem establishPayer_first_call_airdrop_iff_short
    (w : World Net) c recent kp (b : Z) n1 n2 n3 :
  payer (globals w) = None ->
  connection (globals w) = Some c ->
  getRecentBlockhash X c (outside w) = (inr recent, n1) ->
  getPayer X n1 = (inr kp, n2) ->
  getBalance X c (publicKey kp) n2 = (inr b, n3) ->
  0 <= lamportsPerSignature (feeCalculator recent) < 2 ^ 64 ->
  0 <= b < 2 ^ 64 ->
  let fees :=
    number_add 0 (number_mul (lamportsPerSignature (feeCalculator recent)) 100) in
  (b < fees ->
   take 4 (emitted (establishPayer X w)) =
     [ EGetRecentBlockhash c; EGetPayer; EGetBalance c (publicKey kp);
       ERequestAirdrop c (publicKey kp) (number_sub fees b) ]) /\
  (fees <= b ->
   emitted (establishPayer X w) =
     [ EGetRecentBlockhash c; EGetPayer; EGetBalance c (publicKey kp);
       EConsoleLog
         [LogStr "Using account"; LogBase58 (publicKey kp); LogStr "containing";
          LogDiv b (LAMPORTS_PER_SOL X); LogStr "SOL to pay for fees"] ] /\
   result (establishPayer X w) = inr tt /\
   final (establishPayer X w) =
     mkWorld (mkGlobals (Some c) (Some kp) (programId (globals w))) n3) /\
  (lamportsPerSignature (feeCalculator recent) * 100 < 2 ^ 53 ->
   fees = lamportsPerSignature (feeCalculator recent) * 100 /\
   (b < fees -> number_sub fees b = fees - b)).
Proof.
  destruct w as [g n]. cbn [globals outside].
  intros Hkp Hc Hrecent Hpayer Hbal Hprice Hb. cbv zeta.
  assert (Hexact :
    lamportsPerSignature (feeCalculator recent) * 100 < 2 ^ 53 ->
    number_add 0 (number_mul (lamportsPerSignature (feeCalculator recent)) 100)
      = lamportsPerSignature (feeCalculator recent) * 100 /\
    (b < number_add 0
           (number_mul (lamportsPerSignature (feeCalculator recent)) 100) ->
     number_sub
       (number_add 0
          (number_mul (lamportsPerSignature (feeCalculator recent)) 100)) b
     = number_add 0
         (number_mul (lamportsPerSignature (feeCalculator recent)) 100) - b)).
  { intros Hsafe.
    assert (Hfees :
      number_add 0
        (number_mul (lamportsPerSignature (feeCalculator recent)) 100)
      = lamportsPerSignature (feeCalculator recent) * 100).
    { unfold number_add, number_mul.
      rewrite (nearest_double_exact
                 (lamportsPerSignature (feeCalculator recent) * 100))
        by (rewrite Z.abs_eq; lia).
      rewrite Z.add_0_l.
      apply nearest_double_exact. rewrite Z.abs_eq; lia. }
    split; [exact Hfees |].
    rewrite Hfees. intros Hshort. unfold number_sub.
    apply nearest_double_exact. rewrite Z.abs_eq; lia. }
  unfold establishPayer. run_branches.
  all: split; [intros Hshort | split; [intros Henough | exact Hexact]];
    try lia.
  all: try reflexivity.
  rewrite <- Hc. repeat split.
Qed.

(** X4. When the balance query throws on a first call, the error is
    rethrown, yet the payer loaded just before stays in the module
    variable; no airdrop is requested and nothing is logged. *)
Theorem establishPayer_keeps_payer_after_balance_error
    (w : World Net) c recent kp e n1 n2 n3 :
  payer (globals w) = None ->
  connection (globals w) = Some c ->
  getRecentBlockhash X c (outside w) = (inr recent, n1) ->
  getPayer X n1 = (inr kp, n2) ->
  getBalance X c (publicKey kp) n2 = (inl e, n3) ->
  result (establishPayer X w) = inl e /\
  payer (globals (final (establishPayer X w))) = Some kp /\
  emitted (establishPayer X w) =
    [EGetRecentBlockhash c; EGetPayer; EGetBalance c (publicKey kp)].
Proof.
  destruct w as [g n]. cbn [globals outside].
  intros Hkp Hc Hrecent Hpayer Hbal.
  unfold establishPayer. run_all. repeat split.
Qed.

(** X5. [establishPayer] never changes [connection] or [programId],
    never replaces a payer that is already loaded, and returns normally
    only with a payer loaded. *)
Theorem establishPayer_frame (w : World Net) :
  connection (globals (final (establishPayer X w))) = connection (globals w) /\
  programId (globals (final (establishPayer X w))) = programId (globals w) /\
  (forall kp,
     payer (globals w) = Some kp ->
     payer (globals (final (establishPayer X w))) = Some kp) /\
  (result (establishPayer X w) = inr tt ->
   exists kp, payer (globals (final (establishPayer X w))) = Some kp).
Proof.
  destruct w as [g n]. cbn [globals outside].
  unfold establishPayer. run_branches.
  all: cbn [connection payer programId].
  all: repeat split; try assumption; try reflexivity.
  all: try (intros ? Hk; first [discriminate Hk | exact Hk]).
  all: try (intros Hr; first [discriminate Hr | eauto]).
Qed.

(** X6. Whatever the world, an airdrop request of [establishPayer] is
    for a positive amount, goes through the module connection, and is
    for the key of the payer that is loaded when the call ends. *)
Theorem establishPayer_airdrop_is_positive_shortfall
    (w : World Net) c pk (amount : Z) :
  ERequestAirdrop c pk amount ∈ emitted (establishPayer X w) ->
  0 < amount /\
  connection (globals w) = Some c /\
  exists kp, pk = publicKey kp /\
             payer (globals (final (establishPayer X w))) = Some kp.
Proof.
  destruct w as [g n]. cbn [globals outside].
  unfold establishPayer. run_branches.
  all: intros H; pick_event H.
  all: injection H as -> -> ->.
  all: cbn [payer].
  all: (split; [unfold number_sub; apply nearest_double_pos; lia |]);
    (split; [congruence |]); eauto.
Qed.

(** X7. Without a connection [establishPayer] throws a [TypeError]
    before any external call and changes nothing. *)
Theorem establishPayer_without_connection (w : World Net) :
  connection (globals w) = None ->
  (exists msg, result (establishPayer X w) = inl (TypeError msg)) /\
  final (establishPayer X w) = w /\
  emitted (establishPayer X w) = [].
Proof.
  destruct w as [g n]. cbn [globals outside]. intros Hc.
  unfold establishPayer. run_all. all: repeat split; eauto.
Qed.

(** *** checkAccounts *)

(** X8. [checkAccounts] returns normally only if the key file was
    read, a connection exists and the cluster reported an executable
    account at the key's address; then [programId] is that address and
    the calls made are the file read, the account query and the log
    line. *)
Theorem checkAccounts_success_means_executable (w : World Net) :
  result (checkAccounts X w) = inr tt ->
  exists c kp info n1 n2,
    connection (globals w) = Some c /\
    createKeypairFromFile X (PROGRAM_KEYPAIR_PATH X) (outside w) = (inr kp, n1) /\
    getAccountInfo X c (publicKey kp) n1 = (inr (Some info), n2) /\
    executable info = true /\
    final (checkAccounts X w) =
      mkWorld (mkGlobals (Some c) (payer (globals w)) (Some (publicKey kp))) n2 /\
    emitted (checkAccounts X w) =
      [ ECreateKeypairFromFile (PROGRAM_KEYPAIR_PATH X);
        EGetAccountInfo c (publicKey kp);
        EConsoleLog [LogTemplate "Using program " (publicKey kp)] ].
Proof.
  destruct w as [g n]. cbn [globals outside].
  unfold checkAccounts. run_branches.
  all: intros Hok; try discriminate Hok.
  eexists _, _, _, _, _. repeat split; eassumption || reflexivity.
Qed.

(** X9. Once the key file is read and the account query answered,
    the result depends on the answer alone: no account gives one of
    two errors according to whether the program file exists, an account
    that is not executable gives a third, an executable one gives a
    normal return. In every case [programId] has been set, and the log
    line is written only in the last. *)
Theorem checkAccounts_rejections (w : World Net) c kp info n1 n2 :
  connection (globals w) = Some c ->
  createKeypairFromFile X (PROGRAM_KEYPAIR_PATH X) (outside w) = (inr kp, n1) ->
  getAccountInfo X c (publicKey kp) n1 = (inr info, n2) ->
  result (checkAccounts X w) =
    match info with
    | None =>
        if existsSync X (PROGRAM_SO_PATH X) n2
        then inl (Error
          "Program needs to be deployed with `solana program deploy dist/program/test.so`")
        else inl (Error "Program needs to be built and deployed")
    | Some i =>
        if executable i then inr tt
        else inl (Error "Program is not executable")
    end /\
  final (checkAccounts X w) =
    mkWorld (mkGlobals (Some c) (payer (globals w)) (Some (publicKey kp))) n2 /\
  (forall args,
     EConsoleLog args ∈ emitted (checkAccounts X w) ->
     exists i, info = Some i /\ executable i = true).
Proof.
  destruct w as [g n]. cbn [globals outside]. intros Hc Hkp Hinfo.
  unfold checkAccounts. run_branches.
  all: rewrite <- ?Hc.
  all: (split; [reflexivity |]); (split; [reflexivity |]).
  all: intros args H; pick_event H; eauto.
Qed.

(** X10. [checkAccounts] never changes [connection] or [payer]. It
    sets [programId] as soon as the key file is read, whatever happens
    afterwards (no connection, a failing query, a missing program);
    when the file cannot be read it rethrows and leaves [programId]. *)
Theorem checkAccounts_assigns_programId_first (w : World Net) :
  connection (globals (final (checkAccounts X w))) = connection (globals w) /\
  payer (globals (final (checkAccounts X w))) = payer (globals w) /\
  (forall kp n1,
     createKeypairFromFile X (PROGRAM_KEYPAIR_PATH X) (outside w) = (inr kp, n1) ->
     programId (globals (final (checkAccounts X w))) = Some (publicKey kp)) /\
  (forall e n1,
     createKeypairFromFile X (PROGRAM_KEYPAIR_PATH X) (outside w) = (inl e, n1) ->
     result (checkAccounts X w) = inl e /\
     programId (globals (final (checkAccounts X w))) = programId (globals w)).
Proof.
  destruct w as [g n]. cbn [globals outside].
  unfold checkAccounts. run_branches.
  all: cbn [connection payer programId].
  all: (split; [congruence |]); (split; [reflexivity |]).
  all: split; [intros ? ? Hk; first [discriminate Hk | injection Hk as <- <-; reflexivity]
              | intros ? ? Hk; first [discriminate Hk | injection Hk as <- <-; split; reflexivity]].
Qed.

(** *** The outcomes of testContract *)

(** Lines 179-235 either hand the transaction over, after two answered
    rent queries, or fail before that. *)
Lemma submit_cases keys (a : Resolved) (g : Globals) (n : Net) :
  (exists c kp pid mintRent tokenRent n1 n2,
     connection g = Some c /\
     payer g = Some kp /\
     programId g = Some pid /\
     getMinimumBalanceForRentExemption X c (MintLayout_span X) n
       = (inr mintRent, n1) /\
     getMinimumBalanceForRentExemption X c (AccountLayout_span X) n1
       = (inr tokenRent, n2) /\
     let t := recipe X kp pid mintRent keys a in
     let s := [kp; mint_kp a] in
     let o := mkConfirmOptions (Some true) None None in
     let r := sendAndConfirmTransaction X c t s o n2 in
     result (submit X keys a (mkWorld g n))
       = match r.1 with inl e => inl e | inr _ => inr tt end /\
     final (submit X keys a (mkWorld g n)) = mkWorld g r.2 /\
     emitted (submit X keys a (mkWorld g n))
       = [ EGetMinimumBalanceForRentExemption c (MintLayout_span X);
           EGetMinimumBalanceForRentExemption c (AccountLayout_span X);
           ESendAndConfirmTransaction c t s o ]
         ++ match r.1 with
            | inl _ => []
            | inr sig => [EConsoleLog [LogStr sig]]
            end)
  \/
  (exists e n',
     result (submit X keys a (mkWorld g n)) = inl e /\
     final (submit X keys a (mkWorld g n)) = mkWorld g n' /\
     ((exists msg, e = TypeError msg /\
                   ((connection g = None /\
                     emitted (submit X keys a (mkWorld g n)) = [])
                    \/
                    (exists c,
                       connection g = Some c /\
                       (payer g = None \/ programId g = None) /\
                       emitted (submit X keys a (mkWorld g n))
                         = [ EGetMinimumBalanceForRentExemption c
                               (MintLayout_span X);
                             EGetMinimumBalanceForRentExemption c
                               (AccountLayout_span X) ])))
      \/
      (exists c n0 n1,
         connection g = Some c /\
         ((getMinimumBalanceForRentExemption X c (MintLayout_span X) n0
             = (inl e, n1) /\
           emitted (submit X keys a (mkWorld g n))
             = [EGetMinimumBalanceForRentExemption c (MintLayout_span X)])
          \/
          (getMinimumBalanceForRentExemption X c (AccountLayout_span X) n0
             = (inl e, n1) /\
           emitted (submit X keys a (mkWorld g n))
             = [ EGetMinimumBalanceForRentExemption c (MintLayout_span X);
                 EGetMinimumBalanceForRentExemption c (AccountLayout_span X) ]))))).
Proof.
  unfold submit, recipe, Transaction_add, new_Transaction.
  cbn [instructions app]. run_all.
  all: first
    [ (* submitted *)
      left; eexists _, _, _, _, _, _, _;
      do 5 (split; [first [reflexivity | eassumption] |]);
      cbv zeta;
      match goal with H : sendAndConfirmTransaction _ _ _ _ _ _ = _ |- _ =>
        rewrite H end;
      cbn [fst snd]; repeat split; reflexivity
    | (* a rent query threw *)
      right; eexists _, _; do 2 (split; [reflexivity |]);
      right; eexists _, _, _; split; [reflexivity |];
      first [ left; split; [eassumption | reflexivity]
            | right; split; [eassumption | reflexivity] ]
    | (* a module variable is undefined *)
      right; eexists _, _; do 2 (split; [reflexivity |]);
      left; eexists; split; [reflexivity |];
      first [ left; split; reflexivity
            | right; eexists; split; [reflexivity |];
              split; [auto | reflexivity] ] ].
Qed.

(** Lines 113-162 fail only on an undefined module variable or a
    failed derivation: the literals all decode. *)
Lemma resolve_fails (g : Globals) (n : Net) e :
  result (resolve X (mkWorld g n)) = inl e ->
  globals (final (resolve X (mkWorld g n))) = g /\
  ((programId g = None /\
    (exists msg, e = TypeError msg) /\
    final (resolve X (mkWorld g n)) = mkWorld g n /\
    emitted (resolve X (mkWorld g n)) = [])
   \/
   (payer g = None /\
    (exists pid, programId g = Some pid) /\
    (exists msg, e = TypeError msg) /\
    emitted (resolve X (mkWorld g n)) = [EKeypairGenerate])
   \/
   ((exists seeds ownerProgram, derive X seeds ownerProgram = inl e) /\
    (exists kp pid, payer g = Some kp /\ programId g = Some pid) /\
    emitted (resolve X (mkWorld g n)) = [EKeypairGenerate])).
Proof.
  destruct literals_decode as (L1 & L2 & L3 & L4 & L5 & L6).
  unfold resolve. run_all.
  all: intros E; try discriminate E; try congruence.
  all: injection E as <-; (split; [reflexivity |]).
  all: first
    [ left; repeat split; eauto; fail
    | right; left; repeat split; eauto; fail
    | right; right; split; [eauto |]; split; [eauto | reflexivity] ].
Qed.

(** [testContract] is [resolve] followed by [submit] on the account
    list of the source. *)
Lemma testContract_cases (g : Globals) (n : Net) :
  (exists e,
     result (resolve X (mkWorld g n)) = inl e /\
     result (testContract X (mkWorld g n)) = inl e /\
     final (testContract X (mkWorld g n)) = final (resolve X (mkWorld g n)) /\
     emitted (testContract X (mkWorld g n))
       = emitted (resolve X (mkWorld g n)))
  \/
  (exists a kp pid,
     payer g = Some kp /\
     programId g = Some pid /\
     resolution X kp pid (Keypair_generate X n).1 a /\
     let w1 := mkWorld g (Keypair_generate X n).2 in
     let keys := accounts X (publicKey kp) a in
     result (testContract X (mkWorld g n)) = result (submit X keys a w1) /\
     final (testContract X (mkWorld g n)) = final (submit X keys a w1) /\
     emitted (testContract X (mkWorld g n))
       = EKeypairGenerate :: emitted (submit X keys a w1)).
Proof.
  unfold testContract.
  rewrite result_bind, final_bind, emitted_bind.
  destruct (result (resolve X (mkWorld g n))) as [e | a] eqn:Hres.
  - left. exists e. rewrite app_nil_r. repeat split.
  - right.
    destruct (resolve_inv X _ a Hres) as (kp & pid & Hkp & Hpid & Hr & Hfin & Hev).
    cbn [globals outside] in Hkp, Hpid, Hr, Hfin.
    exists a, kp, pid. rewrite Hfin, Hev.
    rewrite result_bind, final_bind, emitted_bind. head_prims.
    rewrite Hkp. cbn [result final emitted app].
    split; [reflexivity |]. split; [exact Hpid |]. split; [exact Hr |].
    cbv zeta. repeat split.
Qed.


(** Every run of [testContract]: either the transaction is handed
    over, or the run has failed before, in one of five ways. *)
Lemma testContract_outcomes (g : Globals) (n : Net) :
  (exists c kp pid a mintRent tokenRent n1 n2,
     connection g = Some c /\
     payer g = Some kp /\
     programId g = Some pid /\
     resolution X kp pid (Keypair_generate X n).1 a /\
     getMinimumBalanceForRentExemption X c (MintLayout_span X)
       (Keypair_generate X n).2 = (inr mintRent, n1) /\
     getMinimumBalanceForRentExemption X c (AccountLayout_span X) n1
       = (inr tokenRent, n2) /\
     let t := recipe X kp pid mintRent (accounts X (publicKey kp) a) a in
     let s := [kp; mint_kp a] in
     let o := mkConfirmOptions (Some true) None None in
     let r := sendAndConfirmTransaction X c t s o n2 in
     result (testContract X (mkWorld g n))
       = match r.1 with inl e => inl e | inr _ => inr tt end /\
     final (testContract X (mkWorld g n)) = mkWorld g r.2 /\
     emitted (testContract X (mkWorld g n))
       = [ EKeypairGenerate;
           EGetMinimumBalanceForRentExemption c (MintLayout_span X);
           EGetMinimumBalanceForRentExemption c (AccountLayout_span X);
           ESendAndConfirmTransaction c t s o ]
         ++ match r.1 with
            | inl _ => []
            | inr sig => [EConsoleLog [LogStr sig]]
            end)
  \/
  (exists e n',
     result (testContract X (mkWorld g n)) = inl e /\
     final (testContract X (mkWorld g n)) = mkWorld g n' /\
     ((exists msg,
         e = TypeError msg /\ programId g = None /\ n' = n /\
         emitted (testContract X (mkWorld g n)) = [])
      \/
      (exists msg pid,
         e = TypeError msg /\ programId g = Some pid /\
         (payer g = None \/ connection g = None) /\
         emitted (testContract X (mkWorld g n)) = [EKeypairGenerate])
      \/
      ((exists seeds ownerProgram, derive X seeds ownerProgram = inl e) /\
       (exists kp pid, payer g = Some kp /\ programId g = Some pid) /\
       emitted (testContract X (mkWorld g n)) = [EKeypairGenerate])
      \/
      (exists c kp pid n0 n1,
         connection g = Some c /\ payer g = Some kp /\ programId g = Some pid /\
         getMinimumBalanceForRentExemption X c (MintLayout_span X) n0
           = (inl e, n1) /\
         emitted (testContract X (mkWorld g n))
           = [ EKeypairGenerate;
               EGetMinimumBalanceForRentExemption c (MintLayout_span X) ])
      \/
      (exists c kp pid n0 n1,
         connection g = Some c /\ payer g = Some kp /\ programId g = Some pid /\
         getMinimumBalanceForRentExemption X c (AccountLayout_span X) n0
           = (inl e, n1) /\
         emitted (testContract X (mkWorld g n))
           = [ EKeypairGenerate;
               EGetMinimumBalanceForRentExemption c (MintLayout_span X);
               EGetMinimumBalanceForRentExemption c (AccountLayout_span X) ]))).
Proof.
  destruct (testContract_cases g n)
    as [(e & Hres & Hr & Hf & Hev)
       | (a & kp & pid & Hkp & Hpid & Hresn & Hr & Hf & Hev)].
  - right. rewrite Hr, Hf, Hev.
    destruct (resolve_fails g n e Hres) as (Hg & Hcause).
    destruct (final (resolve X (mkWorld g n))) as [g' n'] eqn:Hfin.
    cbn [globals] in Hg. subst g'. exists e, n'.
    split; [reflexivity |]. split; [reflexivity |].
    destruct Hcause
      as [(Hpid & [msg ->] & Hw & Hnil)
         | [(Hkp & [pid Hpid] & [msg ->] & Hone) | (Hd & Hset & Hone)]].
    + left. exists msg. injection Hw as ->. auto.
    + right; left. exists msg, pid. auto.
    + right; right; left. auto.
  - cbv zeta in Hr, Hf, Hev. rewrite Hr, Hf, Hev.
    destruct (submit_cases (accounts X (publicKey kp) a) a g
                (Keypair_generate X n).2)
      as [(c & kp' & pid' & mintRent & tokenRent & n1 & n2 & Hc & Hkp' & Hpid'
           & Hm & Ht & Hsr & Hsf & Hse)
         | (e & n' & Hsr & Hsf & Hcause)].
    + left. rewrite Hkp in Hkp'. injection Hkp' as <-.
      rewrite Hpid in Hpid'. injection Hpid' as <-.
      exists c, kp, pid, a, mintRent, tokenRent, n1, n2.
      do 6 (split; [assumption |]).
      cbv zeta in Hsr, Hsf, Hse |- *. rewrite Hsr, Hsf, Hse.
      repeat split.
    + right. exists e, n'. rewrite Hsr, Hsf.
      split; [reflexivity |]. split; [reflexivity |].
      destruct Hcause
        as [(msg & -> & [(Hc & Hnil) | (c & Hc & [Hk | Hp] & _)])
           | (c & n0 & n1 & Hc & [(Hq & Hone) | (Hq & Htwo)])].
      * right; left. exists msg, pid. rewrite Hnil. auto.
      * congruence.
      * congruence.
      * do 3 right. left. exists c, kp, pid, n0, n1. rewrite Hone. auto.
      * do 4 right. exists c, kp, pid, n0, n1. rewrite Htwo. auto 6.
Qed.

(** The cases of [testContract_outcomes], named. *)
Ltac outcomes g n :=
  destruct (testContract_outcomes g n)
    as [(c0 & kp0 & pid0 & a0 & mintRent0 & tokenRent0 & n10 & n20
         & Hc0 & Hkp0 & Hpid0 & Hres0 & Hmint0 & Htoken0 & Hr0 & Hf0 & Hev0)
       | (e0 & n0' & Hr0 & Hf0
          & [(msg0 & -> & Hpid0 & -> & Hev0)
            | [(msg0 & pid0 & -> & Hpid0 & Hunset0 & Hev0)
              | [(Hderive0 & (kp0 & pid0 & Hkp0 & Hpid0) & Hev0)
                | [(c0 & kp0 & pid0 & n00 & n10 & Hc0 & Hkp0 & Hpid0 & Hq0 & Hev0)
                  | (c0 & kp0 & pid0 & n00 & n10 & Hc0 & Hkp0 & Hpid0 & Hq0
                     & Hev0)]]]])];
  cbv zeta in *.

(** X11. [testContract] leaves the three module variables as they
    are, however it ends. *)
Theorem testContract_leaves_module_variables (w : World Net) :
  globals (final (testContract X w)) = globals w.
Proof.
  destruct w as [g n]. outcomes g n; rewrite Hf0; reflexivity.
Qed.

(** X12. The external calls of a run of [testContract] are an initial
    segment of: one key generation, the rent query for the mint size,
    the rent query for the account size, one submission, one log line
    with a signature. So it submits at most once and never asks for a
    balance, a blockhash or an airdrop. *)
Theorem testContract_call_sequence (w : World Net) :
  exists c t s o sig,
    emitted (testContract X w) `prefix_of`
      [ EKeypairGenerate;
        EGetMinimumBalanceForRentExemption c (MintLayout_span X);
        EGetMinimumBalanceForRentExemption c (AccountLayout_span X);
        ESendAndConfirmTransaction c t s o;
        EConsoleLog [LogStr sig] ].
Proof.
  destruct w as [g n]. outcomes g n; rewrite Hev0.
  - destruct (sendAndConfirmTransaction X _ _ _ _ _).1 as [e | sig].
    + eexists c0, _, _, _, ""%string. eexists [_]. reflexivity.
    + eexists c0, _, _, _, sig. exists []. reflexivity.
  - exists (mkConnection "" ""), new_Transaction, [],
      (mkConfirmOptions None None None), ""%string.
    eexists. reflexivity.
  - exists (mkConnection "" ""), new_Transaction, [],
      (mkConfirmOptions None None None), ""%string.
    eexists. reflexivity.
  - exists (mkConnection "" ""), new_Transaction, [],
      (mkConfirmOptions None None None), ""%string.
    eexists. reflexivity.
  - exists c0, new_Transaction, [], (mkConfirmOptions None None None), ""%string.
    eexists. reflexivity.
  - exists c0, new_Transaction, [], (mkConfirmOptions None None None), ""%string.
    eexists. reflexivity.
Qed.

(** X13. With [connection], [payer] or [programId] undefined,
    [testContract] throws, and the only external call it can have made
    is the key generation; with [programId] undefined it makes none and
    changes nothing. *)
Theorem testContract_needs_module_variables (w : World Net) :
  connection (globals w) = None \/ payer (globals w) = None
    \/ programId (globals w) = None ->
  (exists e, result (testContract X w) = inl e) /\
  (forall ev, ev ∈ emitted (testContract X w) -> ev = EKeypairGenerate) /\
  (programId (globals w) = None ->
   emitted (testContract X w) = [] /\ final (testContract X w) = w).
Proof.
  destruct w as [g n]. cbn [globals]. intros Hunset.
  outcomes g n; rewrite ?Hr0, ?Hev0, ?Hf0.
  1, 5, 6: destruct Hunset as [? | [? | ?]]; congruence.
  all: split; [eauto |].
  all: split; [intros ev Hev; pick_event Hev; assumption |].
  all: intros Hp; first [split; reflexivity | congruence].
Qed.

(** X14. Once the transaction is handed over, the answer of
    [sendAndConfirmTransaction] decides the run: its error is rethrown
    as it is, its signature gives a normal return; and a log line is
    written exactly when there is a signature, with that signature. *)
Theorem testContract_outcome_follows_submission (w : World Net) c t s o :
  ESendAndConfirmTransaction c t s o ∈ emitted (testContract X w) ->
  exists n,
    let r := sendAndConfirmTransaction X c t s o n in
    result (testContract X w)
      = match r.1 with inl e => inl e | inr _ => inr tt end /\
    outside (final (testContract X w)) = r.2 /\
    forall args,
      EConsoleLog args ∈ emitted (testContract X w) <->
      exists sig, r.1 = inr sig /\ args = [LogStr sig].
Proof.
  destruct w as [g n]. outcomes g n; rewrite Hev0; intros H.
  2-6: pick_event H.
  rewrite Hr0, Hf0. exists n20.
  destruct (sendAndConfirmTransaction X c0 _ _ _ n20).1 as [e | sig] eqn:Hs.
  - pick_event H. injection H as -> -> -> ->. rewrite Hs.
    split; [reflexivity |]. split; [reflexivity |].
    intros args. split.
    + intros Hl. pick_event Hl.
    + intros (sig & Hsig & _). discriminate Hsig.
  - pick_event H. injection H as -> -> -> ->. rewrite Hs.
    split; [reflexivity |]. split; [reflexivity |].
    intros args. split.
    + intros Hl. pick_event Hl. injection Hl as ->. eauto.
    + intros (sig' & Hsig & ->). injection Hsig as <-.
      do 4 (apply elem_of_cons; right). apply elem_of_cons; left; reflexivity.
Qed.

(** X15. [testContract] returns normally only after the cluster has
    answered the submission with a signature; the calls of such a run
    are exactly the five of the sequence, the last one logging that
    signature. *)
Theorem testContract_success_means_confirmed (w : World Net) :
  result (testContract X w) = inr tt ->
  exists c t s o sig n n',
    sendAndConfirmTransaction X c t s o n = (inr sig, n') /\
    outside (final (testContract X w)) = n' /\
    emitted (testContract X w) =
      [ EKeypairGenerate;
        EGetMinimumBalanceForRentExemption c (MintLayout_span X);
        EGetMinimumBalanceForRentExemption c (AccountLayout_span X);
        ESendAndConfirmTransaction c t s o;
        EConsoleLog [LogStr sig] ].
Proof.
  destruct w as [g n]. outcomes g n; rewrite Hr0; intros Hok;
    try discriminate Hok.
  rewrite Hf0, Hev0.
  destruct (sendAndConfirmTransaction X c0 _ _ _ n20) as [[e | sig] n3] eqn:Hs;
    [discriminate Hok |].
  eexists c0, _, _, _, sig, n20, n3.
  split; [exact Hs |]. split; reflexivity.
Qed.

(** X16. In a submitted transaction the new account is funded with
    what the cluster answered to the rent query for the mint layout
    size, asked right after the key generation, and has that size; the
    rent query for the account layout size was answered too. *)
Theorem testContract_create_account_rent (w : World Net) c t s o :
  ESendAndConfirmTransaction c t s o ∈ emitted (testContract X w) ->
  exists kp mint mintRent tokenRent n1 n2,
    payer (globals w) = Some kp /\
    mint = (Keypair_generate X (outside w)).1 /\
    getMinimumBalanceForRentExemption X c (MintLayout_span X)
      (Keypair_generate X (outside w)).2 = (inr mintRent, n1) /\
    getMinimumBalanceForRentExemption X c (AccountLayout_span X) n1
      = (inr tokenRent, n2) /\
    instructions t !! 0%nat =
      Some (SystemProgram_createAccount (publicKey kp) (publicKey mint)
              mintRent (MintLayout_span X) (TOKEN_PROGRAM_ID X)).
Proof.
  destruct w as [g n]. cbn [globals outside].
  outcomes g n; rewrite Hev0; intros H.
  2-6: pick_event H.
  assert (H' : ESendAndConfirmTransaction c t s o =
               ESendAndConfirmTransaction c0
                 (recipe X kp0 pid0 mintRent0 (accounts X (publicKey kp0) a0) a0)
                 [kp0; mint_kp a0] (mkConfirmOptions (Some true) None None)).
  { destruct (sendAndConfirmTransaction X c0 _ _ _ n20).1; pick_event H;
      exact H. }
  injection H' as -> -> -> ->.
  destruct Hres0 as (_ & _ & _ & Hmint & _).
  exists kp0, (mint_kp a0), mintRent0, tokenRent0, n10, n20.
  repeat split; assumption || reflexivity.
Qed.

(** X17. [testContract] fails for one of four reasons only: a module
    variable is undefined (a [TypeError]); an address derivation failed;
    a rent query threw, and then nothing was submitted; or the cluster
    threw on the submission. The error is the one of the cause. *)
Theorem testContract_failure_causes (w : World Net) e :
  result (testContract X w) = inl e ->
  (exists msg,
     e = TypeError msg /\
     (connection (globals w) = None \/ payer (globals w) = None
        \/ programId (globals w) = None))
  \/ (exists seeds ownerProgram, derive X seeds ownerProgram = inl e)
  \/ (exists c dataLength n0 n1,
        (dataLength = MintLayout_span X \/ dataLength = AccountLayout_span X) /\
        getMinimumBalanceForRentExemption X c dataLength n0 = (inl e, n1) /\
        forall c' t s o,
          ESendAndConfirmTransaction c' t s o ∉ emitted (testContract X w))
  \/ (exists c t s o n0 n1,
        ESendAndConfirmTransaction c t s o ∈ emitted (testContract X w) /\
        sendAndConfirmTransaction X c t s o n0 = (inl e, n1)).
Proof.
  destruct w as [g n]. cbn [globals].
  outcomes g n; rewrite Hr0, Hev0; intros Hfail.
  - do 3 right.
    destruct (sendAndConfirmTransaction X c0 _ _ _ n20) as [[e' | sig] n3] eqn:Hs;
      [| discriminate Hfail].
    injection Hfail as ->.
    eexists c0, _, _, _, n20, n3. split; [| exact Hs].
    do 3 (apply elem_of_cons; right). apply elem_of_cons; left; reflexivity.
  - injection Hfail as <-. left. eauto.
  - injection Hfail as <-. left. exists msg0. split; [reflexivity |].
    destruct Hunset0; auto.
  - injection Hfail as <-. right; left. exact Hderive0.
  - injection Hfail as <-. right; right; left.
    exists c0, (MintLayout_span X), n00, n10.
    split; [auto |]. split; [exact Hq0 |].
    intros c' t s o H. pick_event H.
  - injection Hfail as <-. right; right; left.
    exists c0, (AccountLayout_span X), n00, n10.
    split; [auto |]. split; [exact Hq0 |].
    intros c' t s o H. pick_event H.
Qed.

(** X18. The remaining accounts of the custom instruction: account 1
    is the literal mint, account 10 its metadata record (seeds
    "metadata", metadata program, that mint, under the metadata
    program), account 11 the payer's associated account for it (seeds
    payer, token program, that mint, under the associated-account
    program); accounts 2, 6, 7, 9 and 12 are the system program, the
    metadata program, the rent sysvar, the token program and the literal
    update authority. *)
Theorem testContract_secondary_accounts (w : World Net) c t s o :
  ESendAndConfirmTransaction c t s o ∈ emitted (testContract X w) ->
  exists kp pid keys rugged meta assoc sys rent auth m10 b10 m11 b11,
    payer (globals w) = Some kp /\
    instructions t !! 4%nat = Some (new_TransactionInstruction keys pid []) /\
    PublicKey_of_base58 "GQFdQvFMjkq5x1Ny4nsEqRgcwdedJWpq3Fsy5KqjGKSm"
      = inr rugged /\
    PublicKey_of_base58 "metaqbxxUerdq28cj1RbAWkYQm3ybzjb6a8bt518x1s"
      = inr meta /\
    PublicKey_of_base58 "ATokenGPvbdGVxr1b2hvZbsiqW5xWH25efTNsLJA8knL"
      = inr assoc /\
    PublicKey_of_base58 "11111111111111111111111111111111" = inr sys /\
    PublicKey_of_base58 "SysvarRent111111111111111111111111111111111"
      = inr rent /\
    PublicKey_of_base58 "VLawmZTgLAbdeqrU579ohsdey9H1h3Mi1UeUJpg2mQB"
      = inr auth /\
    derive X [Buffer_from "metadata"; toBuffer meta; toBuffer rugged] meta
      = inr (m10, b10) /\
    derive X
      [toBuffer (publicKey kp); toBuffer (TOKEN_PROGRAM_ID X); toBuffer rugged]
      assoc
      = inr (m11, b11) /\
    pubkey <$> keys !! 1%nat = Some rugged /\
    pubkey <$> keys !! 2%nat = Some sys /\
    pubkey <$> keys !! 6%nat = Some meta /\
    pubkey <$> keys !! 7%nat = Some rent /\
    pubkey <$> keys !! 9%nat = Some (TOKEN_PROGRAM_ID X) /\
    pubkey <$> keys !! 10%nat = Some m10 /\
    pubkey <$> keys !! 11%nat = Some m11 /\
    pubkey <$> keys !! 12%nat = Some auth.
Proof.
  intros H.
  apply testContract_emits
    in H as (kp & pid & mintRent & a & Hkp & Hpid & Hc & Hres & -> & -> & ->).
  destruct Hres as
    (Hmeta & _ & Hassoc & _ & Hrug & _ & [b11 H11] & _ & [b10 H10] & _
     & Hsys & Hrent & Hauth).
  exists kp, pid, (accounts X (publicKey kp) a), (rugged_mint a),
    (meta_program a), (associated_program a), (sys_key a), (rent_key a),
    (new_update_auth a), (rugged_metadata a), b10, (rugged_token a), b11.
  conj_known.
Qed.

(** *** main *)

(** A call of a sequence is a call of its first part, or of what
    follows once the first part has returned. *)
Lemma elem_of_emitted_bind {A B} (m : M Net A) (k : A -> M Net B) w (e : Event) :
  e ∈ emitted (bind m k w) ->
  e ∈ emitted (m w) \/
  exists a, result (m w) = inr a /\ e ∈ emitted (k a (final (m w))).
Proof.
  rewrite emitted_bind. intros H. apply elem_of_app in H as [H | H].
  - left. exact H.
  - destruct (result (m w)) as [err | a].
    + apply elem_of_nil in H. contradiction.
    + right. exists a. split; [reflexivity | exact H].
Qed.

Lemma establishConnection_ok_inv (w : World Net) :
  result (establishConnection X w) = inr tt ->
  exists url n1,
    getRpcUrl X (outside w) = (inr url, n1) /\
    globals (final (establishConnection X w))
      = mkGlobals (Some (mkConnection url "confirmed"))
          (payer (globals w)) (programId (globals w)).
Proof.
  destruct w as [g n]. cbn [globals outside].
  unfold establishConnection, new_Connection. run_branches.
  all: intros Hok; try discriminate Hok.
  eexists _, _. split; reflexivity.
Qed.

Lemma establishPayer_keeps_connection (w : World Net) :
  connection (globals (final (establishPayer X w))) = connection (globals w).
Proof.
  destruct w as [g n]. cbn [globals outside].
  unfold establishPayer. run_branches.
  all: cbn [connection]; congruence.
Qed.

Lemma checkAccounts_ok_inv (w : World Net) :
  result (checkAccounts X w) = inr tt ->
  exists c kp info n1 n2,
    connection (globals w) = Some c /\
    createKeypairFromFile X (PROGRAM_KEYPAIR_PATH X) (outside w) = (inr kp, n1) /\
    getAccountInfo X c (publicKey kp) n1 = (inr (Some info), n2) /\
    executable info = true /\
    final (checkAccounts X w) =
      mkWorld (mkGlobals (Some c) (payer (globals w)) (Some (publicKey kp))) n2.
Proof.
  destruct w as [g n]. cbn [globals outside].
  unfold checkAccounts. run_branches.
  all: intros Hok; try discriminate Hok.
  eexists _, _, _, _, _. repeat split; eassumption || reflexivity.
Qed.

(** The three steps before [testContract] submit nothing. *)
Lemma prelude_never_submits (w : World Net) c t s o :
  (ESendAndConfirmTransaction c t s o ∉ emitted (establishConnection X w)) /\
  (ESendAndConfirmTransaction c t s o ∉ emitted (establishPayer X w)) /\
  (ESendAndConfirmTransaction c t s o ∉ emitted (checkAccounts X w)).
Proof.
  destruct w as [g n]. repeat split.
  - unfold establishConnection, new_Connection. run_branches.
    all: intros H; pick_event H.
  - unfold establishPayer. run_branches. all: intros H; pick_event H.
  - unfold checkAccounts. run_branches. all: intros H; pick_event H.
Qed.

(** X19. [main] hands a transaction to the cluster only through the
    connection [establishConnection] made to the URL of [getRpcUrl],
    after [checkAccounts] has read the program's key file and the
    cluster has reported an executable account at that key; the custom
    instruction calls that program. *)
Theorem main_submits_only_after_checks (w : World Net) c t s o :
  ESendAndConfirmTransaction c t s o ∈ emitted (main X w) ->
  exists url n1 prog info n2 n3 n4 keys,
    getRpcUrl X (outside w) = (inr url, n1) /\
    c = mkConnection url "confirmed" /\
    createKeypairFromFile X (PROGRAM_KEYPAIR_PATH X) n2 = (inr prog, n3) /\
    getAccountInfo X c (publicKey prog) n3 = (inr (Some info), n4) /\
    executable info = true /\
    instructions t !! 4%nat
      = Some (new_TransactionInstruction keys (publicKey prog) []).
Proof.
  unfold main. intros H.
  apply elem_of_emitted_bind in H as [H | ([] & Hconn & H)];
    [exfalso; revert H; apply prelude_never_submits |].
  apply elem_of_emitted_bind in H as [H | ([] & Hpay & H)];
    [exfalso; revert H; apply prelude_never_submits |].
  apply elem_of_emitted_bind in H as [H | ([] & Hchk & H)];
    [exfalso; revert H; apply prelude_never_submits |].
  destruct (establishConnection_ok_inv w Hconn) as (url & n1 & Hurl & Hg1).
  pose proof (establishPayer_keeps_connection (final (establishConnection X w)))
    as Hg2.
  rewrite Hg1 in Hg2. cbn [connection] in Hg2.
  destruct (checkAccounts_ok_inv _ Hchk)
    as (c' & prog & info & n3 & n4 & Hc' & Hkey & Hinfo & Hexe & Hfin).
  rewrite Hg2 in Hc'. injection Hc' as <-.
  apply testContract_emits
    in H as (kp & pid & mintRent & a & Hkp & Hpid & Hc & _ & -> & _ & _).
  rewrite Hfin in Hpid, Hc. cbn [globals programId connection] in Hpid, Hc.
  injection Hpid as <-. injection Hc as <-.
  eexists url, n1, prog, info, _, n3, n4, _.
  repeat split; eassumption || reflexivity.
Qed.

End More.

(** ** The client on the model cluster *)

Import Localnet.

(** On the model cluster, [testContract] started in [ready] hands
    [sent] to the cluster, signed by the wallet and the generated key
    pair. *)
Lemma ready_run_submits :
  ESendAndConfirmTransaction cluster sent [wallet; minted] skipping
    ∈ emitted (testContract externals ready).
Proof. apply (list_elem_of_lookup_2 _ 3%nat). vm_compute. reflexivity. Defined.

Lemma custom_invoke_matches_template_witness :
  ESendAndConfirmTransaction cluster sent [wallet; minted] skipping
    ∈ emitted (testContract externals ready) /\
  exists kp pid a keys,
    payer (globals ready) = Some kp /\
    programId (globals ready) = Some pid /\
    resolution externals kp pid (Keypair_generate externals (outside ready)).1 a /\
    instructions sent !! 4%nat = Some (new_TransactionInstruction keys pid []) /\
    keys = instantiate (role_address externals (publicKey kp) a) TEMPLATE /\
    length keys = 13%nat /\
    flags keys =
      [ (true, true);
        (false, true); (false, false); (false, true); (false, true);
        (false, true); (false, false); (false, false); (false, true);
        (false, false); (false, true); (false, true); (false, true) ].
Proof.
  split; [exact ready_run_submits |].
  apply (custom_invoke_matches_template externals ready cluster sent
           [wallet; minted] skipping).
  apply (list_elem_of_lookup_2 _ 3%nat). vm_compute. reflexivity.
Defined.

Lemma instructions_in_fixed_order_witness :
  ESendAndConfirmTransaction cluster sent [wallet; minted] skipping
    ∈ emitted (testContract externals ready) /\
  kind <$> instructions sent =
    [CreateAccount; InitializeMint; CreateAssociatedAccount; MintTo;
     CustomInvoke].
Proof.
  split; [exact ready_run_submits |].
  apply (instructions_in_fixed_order externals ready cluster sent
           [wallet; minted] skipping).
  apply (list_elem_of_lookup_2 _ 3%nat). vm_compute. reflexivity.
Defined.

Lemma derived_addresses_seeds_and_owners_witness :
  ESendAndConfirmTransaction cluster sent [wallet; minted] skipping
    ∈ emitted (testContract externals ready) /\
  exists kp pid meta assoc keys metadata authority ata b1 b2 b3,
    let mint := publicKey (Keypair_generate externals (outside ready)).1 in
    payer (globals ready) = Some kp /\
    programId (globals ready) = Some pid /\
    PublicKey_of_base58 "metaqbxxUerdq28cj1RbAWkYQm3ybzjb6a8bt518x1s"
      = inr meta /\
    PublicKey_of_base58 "ATokenGPvbdGVxr1b2hvZbsiqW5xWH25efTNsLJA8knL"
      = inr assoc /\
    derive externals [Buffer_from "metadata"; toBuffer meta; toBuffer mint] meta
      = inr (metadata, b1) /\
    derive externals
      [Buffer_from "amoebit_minter"; toBuffer pid;
       Buffer_from "amoebit_minter"] pid
      = inr (authority, b2) /\
    derive externals
      [toBuffer (publicKey kp); toBuffer (TOKEN_PROGRAM_ID externals);
       toBuffer mint]
      assoc
      = inr (ata, b3) /\
    instructions sent !! 4%nat = Some (new_TransactionInstruction keys pid []) /\
    pubkey <$> keys !! 5%nat = Some metadata /\
    pubkey <$> keys !! 8%nat = Some authority /\
    pubkey <$> keys !! 3%nat = Some ata /\
    pubkey <$> keys !! 4%nat = Some mint /\
    pubkey <$> keys !! 0%nat = Some (publicKey kp).
Proof.
  split; [exact ready_run_submits |].
  apply (derived_addresses_seeds_and_owners externals ready cluster sent
           [wallet; minted] skipping).
  apply (list_elem_of_lookup_2 _ 3%nat). vm_compute. reflexivity.
Defined.

Lemma mint_to_one_unit_witness :
  ESendAndConfirmTransaction cluster sent [wallet; minted] skipping
    ∈ emitted (testContract externals ready) /\
  exists kp assoc mint ata bump rent,
    payer (globals ready) = Some kp /\
    instructions sent !! 0%nat =
      Some (SystemProgram_createAccount (publicKey kp) mint rent
              (MintLayout_span externals) (TOKEN_PROGRAM_ID externals)) /\
    instructions sent !! 2%nat =
      Some (Token_createAssociatedTokenAccountInstruction assoc
              (TOKEN_PROGRAM_ID externals) mint ata (publicKey kp) (publicKey kp)) /\
    derive externals
      [toBuffer (publicKey kp); toBuffer (TOKEN_PROGRAM_ID externals);
       toBuffer mint]
      assoc
      = inr (ata, bump) /\
    instructions sent !! 3%nat =
      Some (Token_createMintToInstruction (TOKEN_PROGRAM_ID externals) mint ata
              (publicKey kp) [] 1) /\
    kp ∈ [wallet; minted].
Proof.
  split; [exact ready_run_submits |].
  apply (mint_to_one_unit externals ready cluster sent
           [wallet; minted] skipping).
  apply (list_elem_of_lookup_2 _ 3%nat). vm_compute. reflexivity.
Defined.

Lemma initialize_mint_parameters_witness :
  ESendAndConfirmTransaction cluster sent [wallet; minted] skipping
    ∈ emitted (testContract externals ready) /\
  exists kp mint rent,
    payer (globals ready) = Some kp /\
    instructions sent !! 0%nat =
      Some (SystemProgram_createAccount (publicKey kp) mint rent
              (MintLayout_span externals) (TOKEN_PROGRAM_ID externals)) /\
    instructions sent !! 1%nat =
      Some (Token_createInitMintInstruction (TOKEN_PROGRAM_ID externals) mint 0
              (publicKey kp) None).
Proof.
  split; [exact ready_run_submits |].
  apply (initialize_mint_parameters externals ready cluster sent
           [wallet; minted] skipping).
  apply (list_elem_of_lookup_2 _ 3%nat). vm_compute. reflexivity.
Defined.

Lemma submission_signers_and_options_witness :
  ESendAndConfirmTransaction cluster sent [wallet; minted] skipping
    ∈ emitted (testContract externals ready) /\
  exists kp rent,
    let mint := (Keypair_generate externals (outside ready)).1 in
    payer (globals ready) = Some kp /\
    [wallet; minted] = [kp; mint] /\
    instructions sent !! 0%nat =
      Some (SystemProgram_createAccount (publicKey kp) (publicKey mint) rent
              (MintLayout_span externals) (TOKEN_PROGRAM_ID externals)) /\
    skipping = mkConfirmOptions (Some true) None None /\
    skipPreflight skipping = Some true.
Proof.
  split; [exact ready_run_submits |].
  apply (submission_signers_and_options externals ready cluster sent
           [wallet; minted] skipping).
  apply (list_elem_of_lookup_2 _ 3%nat). vm_compute. reflexivity.
Defined.


(** With a dry faucet the balance is still 0 after the airdrop request,
    below the 5000 required, and [establishPayer] returns normally. *)
Lemma establishPayer_shortfall_not_raised :
  ~ (forall b n,
       getBalance externals cluster (publicKey wallet)
         (outside (final (establishPayer externals dry))) = (inr b, n) ->
       b < 5000 ->
       exists e, result (establishPayer externals dry) = inl e).
Proof.
  intros H.
  destruct (H 0 (outside (final (establishPayer externals dry))))
    as [e He]; [vm_compute; reflexivity | lia |].
  vm_compute in He. discriminate He.
Qed.

Lemma establishPayer_airdrops_shortfall_witness :
  payer (globals dry) = None /\
  ERequestAirdrop cluster (publicKey wallet) 5000
    ∈ emitted (establishPayer externals dry) /\
  result (establishPayer externals dry) = inr tt.
Proof.
  split; [vm_compute; reflexivity |].
  destruct (establishPayer_airdrops_shortfall externals dry cluster
              (mkRecentBlockhash "blockhash" (mkFeeCalculator 50))
              wallet "airdrop" 0
              (outside dry) (outside dry) (outside dry) (outside dry)
              (outside dry) (outside dry))
    as (Hev & Hres & _); try (vm_compute; reflexivity).
  split; [| exact Hres].
  rewrite Hev. apply (list_elem_of_lookup_2 _ 3%nat). reflexivity.
Defined.

Lemma establishPayer_repeat_call_no_airdrop_witness :
  payer (globals ready) = Some wallet /\
  (forall c pk amount,
     ERequestAirdrop c pk amount ∉ emitted (establishPayer externals ready)) /\
  globals (final (establishPayer externals ready)) = globals ready.
Proof.
  split; [vm_compute; reflexivity |].
  destruct (establishPayer_repeat_call_no_airdrop externals ready wallet)
    as (Hno & _ & Hglob & _).
  - vm_compute. reflexivity.
  - intros c b n' _ Hb. vm_compute in Hb. injection Hb as <- _. lia.
  - exact (conj Hno Hglob).
Defined.

Lemma findProgramAddress_deterministic_witness :
  result
    (findProgramAddress externals
       [toBuffer (publicKey wallet); toBuffer (TOKEN_PROGRAM_ID externals);
        toBuffer (publicKey minted)]
       (associated_program resolved) ready)
  = result
      (findProgramAddress offline
         [toBuffer (publicKey wallet); toBuffer (TOKEN_PROGRAM_ID externals);
          toBuffer (publicKey minted)]
         (associated_program resolved)
         (mkWorld (mkGlobals None None None) tt)).
Proof.
  apply (findProgramAddress_deterministic externals offline);
    intros; reflexivity.
Defined.

(** *** The rest of the client on the model cluster *)

Lemma establishConnection_replaces_connection_witness :
  getRpcUrl externals (outside (boot true))
    = (inr "http://localhost:8899", outside (boot true)) /\
  valid_endpoint externals "http://localhost:8899" = true /\
  globals (final (establishConnection externals (boot true)))
    = mkGlobals (Some cluster) None None.
Proof.
  split; [reflexivity |]. split; [reflexivity |].
  destruct (establishConnection_replaces_connection externals (boot true)
              "http://localhost:8899" (outside (boot true)) eq_refl)
    as (Hvalid & _).
  destruct (Hvalid eq_refl) as (Hg & _).
  exact Hg.
Defined.

Lemma establishConnection_url_failure_witness :
  result (establishConnection offline (mkWorld (mkGlobals None None None) tt))
    = inl (Error "offline") /\
  emitted (establishConnection offline (mkWorld (mkGlobals None None None) tt))
    = [EGetRpcUrl].
Proof.
  destruct (establishConnection_url_failure offline
              (mkWorld (mkGlobals None None None) tt) (Error "offline") tt
              eq_refl)
    as (Hr & _ & Hev).
  exact (conj Hr Hev).
Defined.

Lemma establishPayer_first_call_airdrop_iff_short_witness :
  take 4 (emitted (establishPayer externals dry)) =
    [ EGetRecentBlockhash cluster; EGetPayer;
      EGetBalance cluster (publicKey wallet);
      ERequestAirdrop cluster (publicKey wallet) 5000 ].
Proof.
  destruct (establishPayer_first_call_airdrop_iff_short externals dry cluster
              (mkRecentBlockhash "blockhash" (mkFeeCalculator 50)) wallet 0
              (outside dry) (outside dry) (outside dry)
              ltac:(vm_compute; reflexivity) ltac:(vm_compute; reflexivity)
              ltac:(vm_compute; reflexivity) ltac:(vm_compute; reflexivity)
              ltac:(vm_compute; reflexivity) ltac:(cbn; lia) ltac:(cbn; lia))
    as (Hshort & _).
  apply Hshort. reflexivity.
Defined.

Lemma establishPayer_keeps_payer_after_balance_error_witness :
  result (establishPayer Outage.no_balance dry)
    = inl (Error "balance unavailable") /\
  payer (globals (final (establishPayer Outage.no_balance dry))) = Some wallet.
Proof.
  destruct (establishPayer_keeps_payer_after_balance_error Outage.no_balance
              dry cluster (mkRecentBlockhash "blockhash" (mkFeeCalculator 50))
              wallet (Error "balance unavailable")
              (outside dry) (outside dry) (outside dry)
              ltac:(vm_compute; reflexivity) ltac:(vm_compute; reflexivity)
              ltac:(vm_compute; reflexivity) ltac:(vm_compute; reflexivity)
              ltac:(vm_compute; reflexivity))
    as (Hr & Hp & _).
  exact (conj Hr Hp).
Defined.

Lemma establishPayer_airdrop_is_positive_shortfall_witness :
  ERequestAirdrop cluster (publicKey wallet) 5000
    ∈ emitted (establishPayer externals dry) /\
  0 < 5000.
Proof.
  assert (H : ERequestAirdrop cluster (publicKey wallet) 5000
                ∈ emitted (establishPayer externals dry))
    by (apply (list_elem_of_lookup_2 _ 3%nat); vm_compute; reflexivity).
  split; [exact H |].
  exact (proj1 (establishPayer_airdrop_is_positive_shortfall externals dry
                  cluster (publicKey wallet) 5000 H)).
Defined.

Lemma establishPayer_without_connection_witness :
  connection (globals (boot true)) = None /\
  emitted (establishPayer externals (boot true)) = [].
Proof.
  split; [reflexivity |].
  destruct (establishPayer_without_connection externals (boot true) eq_refl)
    as (_ & _ & Hev).
  exact Hev.
Defined.

Lemma checkAccounts_success_means_executable_witness :
  result (checkAccounts externals dry) = inr tt /\
  exists c kp info n1 n2,
    connection (globals dry) = Some c /\
    createKeypairFromFile externals (PROGRAM_KEYPAIR_PATH externals) (outside dry)
      = (inr kp, n1) /\
    getAccountInfo externals c (publicKey kp) n1 = (inr (Some info), n2) /\
    executable info = true /\
    final (checkAccounts externals dry) =
      mkWorld (mkGlobals (Some c) (payer (globals dry)) (Some (publicKey kp))) n2 /\
    emitted (checkAccounts externals dry) =
      [ ECreateKeypairFromFile (PROGRAM_KEYPAIR_PATH externals);
        EGetAccountInfo c (publicKey kp);
        EConsoleLog [LogTemplate "Using program " (publicKey kp)] ].
Proof.
  split; [vm_compute; reflexivity |].
  apply (checkAccounts_success_means_executable externals dry).
  vm_compute. reflexivity.
Defined.

Lemma checkAccounts_rejections_witness :
  result (checkAccounts Outage.undeployed dry) =
    inl (Error
      "Program needs to be deployed with `solana program deploy dist/program/test.so`").
Proof.
  destruct (checkAccounts_rejections Outage.undeployed dry cluster program None
              (outside dry) (outside dry)
              ltac:(vm_compute; reflexivity) ltac:(vm_compute; reflexivity)
              ltac:(vm_compute; reflexivity))
    as (Hr & _).
  exact Hr.
Defined.

Lemma testContract_needs_module_variables_witness :
  programId (globals (boot true)) = None /\
  emitted (testContract externals (boot true)) = [].
Proof.
  split; [reflexivity |].
  destruct (testContract_needs_module_variables externals (boot true))
    as (_ & _ & Hnone).
  - left. reflexivity.
  - exact (proj1 (Hnone eq_refl)).
Defined.

Lemma testContract_outcome_follows_submission_witness :
  ESendAndConfirmTransaction cluster sent [wallet; minted] skipping
    ∈ emitted (testContract Outage.rejecting ready) /\
  result (testContract Outage.rejecting ready)
    = inl (Error "custom program error: 0x1").
Proof.
  assert (H : ESendAndConfirmTransaction cluster sent [wallet; minted] skipping
                ∈ emitted (testContract Outage.rejecting ready))
    by (apply (list_elem_of_lookup_2 _ 3%nat); vm_compute; reflexivity).
  split; [exact H |].
  destruct (testContract_outcome_follows_submission Outage.rejecting ready
              cluster sent [wallet; minted] skipping H)
    as (n & Hr & _).
  exact Hr.
Defined.

Lemma testContract_success_means_confirmed_witness :
  result (testContract externals ready) = inr tt /\
  exists c t s o sig n n',
    sendAndConfirmTransaction externals c t s o n = (inr sig, n') /\
    outside (final (testContract externals ready)) = n' /\
    emitted (testContract externals ready) =
      [ EKeypairGenerate;
        EGetMinimumBalanceForRentExemption c (MintLayout_span externals);
        EGetMinimumBalanceForRentExemption c (AccountLayout_span externals);
        ESendAndConfirmTransaction c t s o;
        EConsoleLog [LogStr sig] ].
Proof.
  split; [vm_compute; reflexivity |].
  apply (testContract_success_means_confirmed externals ready).
  vm_compute. reflexivity.
Defined.

Lemma testContract_create_account_rent_witness :
  ESendAndConfirmTransaction cluster sent [wallet; minted] skipping
    ∈ emitted (testContract externals ready) /\
  exists kp mint mintRent tokenRent n1 n2,
    payer (globals ready) = Some kp /\
    mint = (Keypair_generate externals (outside ready)).1 /\
    getMinimumBalanceForRentExemption externals cluster
      (MintLayout_span externals)
      (Keypair_generate externals (outside ready)).2 = (inr mintRent, n1) /\
    getMinimumBalanceForRentExemption externals cluster
      (AccountLayout_span externals) n1
      = (inr tokenRent, n2) /\
    instructions sent !! 0%nat =
      Some (SystemProgram_createAccount (publicKey kp) (publicKey mint)
              mintRent (MintLayout_span externals) (TOKEN_PROGRAM_ID externals)).
Proof.
  split; [exact ready_run_submits |].
  apply (testContract_create_account_rent externals ready cluster sent
           [wallet; minted] skipping).
  apply (list_elem_of_lookup_2 _ 3%nat). vm_compute. reflexivity.
Defined.

Lemma testContract_failure_causes_witness :
  result (testContract Outage.rejecting ready)
    = inl (Error "custom program error: 0x1") /\
  ((exists msg,
      Error "custom program error: 0x1" = TypeError msg /\
      (connection (globals ready) = None \/ payer (globals ready) = None
         \/ programId (globals ready) = None))
   \/ (exists seeds ownerProgram,
         derive Outage.rejecting seeds ownerProgram
           = inl (Error "custom program error: 0x1"))
   \/ (exists c dataLength n0 n1,
         (dataLength = MintLayout_span Outage.rejecting
            \/ dataLength = AccountLayout_span Outage.rejecting) /\
         getMinimumBalanceForRentExemption Outage.rejecting c dataLength n0
           = (inl (Error "custom program error: 0x1"), n1) /\
         forall c' t s o,
           ESendAndConfirmTransaction c' t s o
             ∉ emitted (testContract Outage.rejecting ready))
   \/ (exists c t s o n0 n1,
         ESendAndConfirmTransaction c t s o
           ∈ emitted (testContract Outage.rejecting ready) /\
         sendAndConfirmTransaction Outage.rejecting c t s o n0
           = (inl (Error "custom program error: 0x1"), n1))).
Proof.
  split; [vm_compute; reflexivity |].
  apply (testContract_failure_causes Outage.rejecting ready).
  vm_compute. reflexivity.
Defined.

Lemma testContract_secondary_accounts_witness :
  ESendAndConfirmTransaction cluster sent [wallet; minted] skipping
    ∈ emitted (testContract externals ready) /\
  exists keys rugged m10 m11,
    instructions sent !! 4%nat
      = Some (new_TransactionInstruction keys (publicKey program) []) /\
    PublicKey_of_base58 "GQFdQvFMjkq5x1Ny4nsEqRgcwdedJWpq3Fsy5KqjGKSm"
      = inr rugged /\
    pubkey <$> keys !! 1%nat = Some rugged /\
    pubkey <$> keys !! 10%nat = Some m10 /\
    pubkey <$> keys !! 11%nat = Some m11.
Proof.
  split; [exact ready_run_submits |].
  destruct (testContract_secondary_accounts externals ready cluster sent
              [wallet; minted] skipping)
    as (kp & pid & keys & rugged & meta & assoc & sys & rent & auth
        & m10 & b10 & m11 & b11 & _ & Ht & Hrug & _ & _ & _ & _ & _ & _ & _
        & H1 & _ & _ & _ & _ & H10 & H11 & _).
  { apply (list_elem_of_lookup_2 _ 3%nat). vm_compute. reflexivity. }
  exists keys, rugged, m10, m11.
  assert (Hpid : pid = publicKey program).
  { vm_compute in Ht. injection Ht as _ <-. reflexivity. }
  rewrite Hpid in Ht.
  exact (conj Ht (conj Hrug (conj H1 (conj H10 H11)))).
Defined.

Lemma main_submits_only_after_checks_witness :
  ESendAndConfirmTransaction cluster sent [wallet; minted] skipping
    ∈ emitted (main externals (boot true)) /\
  exists url n1 prog info n2 n3 n4 keys,
    getRpcUrl externals (outside (boot true)) = (inr url, n1) /\
    cluster = mkConnection url "confirmed" /\
    createKeypairFromFile externals (PROGRAM_KEYPAIR_PATH externals) n2
      = (inr prog, n3) /\
    getAccountInfo externals cluster (publicKey prog) n3
      = (inr (Some info), n4) /\
    executable info = true /\
    instructions sent !! 4%nat
      = Some (new_TransactionInstruction keys (publicKey prog) []).
Proof.
  assert (H : ESendAndConfirmTransaction cluster sent [wallet; minted] skipping
                ∈ emitted (main externals (boot true)))
    by (apply (list_elem_of_lookup_2 _ 16%nat); vm_compute; reflexivity).
  split; [exact H |].
  exact (main_submits_only_after_checks externals (boot true) cluster sent
           [wallet; minted] skipping H).
Defined.
